(** * sambacc: CTDB nodes file and cluster state file management

    A shallow embedding of [sambacc/ctdb.py] (nodes file accessors, the
    JSON state file registration, the node update check and commit) and of
    the retry loop of [sambacc/commands/ctdb.py], with the properties the
    specification states about them. *)

From Stdlib Require Import ZArith Ascii String List Lia.
From Stdlib Require DecimalString DecimalZ.
From stdpp Require Import base option list gmap strings.

(** ** Text: Python [str] values read from and written to text files *)

(** Characters are code points below 256, one [ascii] each; the addresses
    stored in a nodes file are plain ASCII. *)
Module Text.

Definition LF : ascii := ascii_of_nat 10.
Definition CR : ascii := ascii_of_nat 13.

(** [str.isspace] on one code point: TAB..CR, FS..US, SPACE, NEL, NBSP. *)
Definition isspace (c : ascii) : bool :=
  let n := nat_of_ascii c in
  ((9 <=? n)%nat && (n <=? 13)%nat) || ((28 <=? n)%nat && (n <=? 32)%nat)
  || (n =? 133)%nat || (n =? 160)%nat.

Fixpoint lstrip (s : string) : string :=
  match s with
  | EmptyString => EmptyString
  | String c r => if isspace c then lstrip r else s
  end.

Fixpoint rstrip (s : string) : string :=
  match s with
  | EmptyString => EmptyString
  | String c r =>
      match rstrip r with
      | EmptyString => if isspace c then EmptyString else String c EmptyString
      | r' => String c r'
      end
  end.

(** [str.strip()] with no argument. *)
Definition strip (s : string) : string := lstrip (rstrip s).

(** Reading a file opened with [open(path, "r")]: universal newlines mode
    turns every CR LF and every lone CR into LF. *)
Fixpoint universal_newlines (s : string) : string :=
  match s with
  | EmptyString => EmptyString
  | String c r =>
      if Ascii.eqb c CR then
        match r with
        | String c' r' =>
            if Ascii.eqb c' LF then String LF (universal_newlines r')
            else String LF (universal_newlines r)
        | EmptyString => String LF EmptyString
        end
      else String c (universal_newlines r)
  end.

(** The lines a text file object yields when iterated: each keeps its
    terminating LF, the last one may lack it. *)
Fixpoint lines (s : string) : list string :=
  match s with
  | EmptyString => []
  | String c r =>
      if Ascii.eqb c LF then String LF EmptyString :: lines r
      else match lines r with
           | [] => [String c EmptyString]
           | l :: ls => String c l :: ls
           end
  end.

(** Every character of [s] satisfies [p]. *)
Fixpoint all_chars (p : ascii -> bool) (s : string) : bool :=
  match s with
  | EmptyString => true
  | String c r => p c && all_chars p r
  end.

(** No whitespace character (and so no newline character) in [s]. *)
Definition no_whitespace (s : string) : bool :=
  all_chars (fun c => negb (isspace c)) s.

(** No line break character in [s]. *)
Definition no_newline (s : string) : bool :=
  all_chars (fun c => negb (Ascii.eqb c LF) && negb (Ascii.eqb c CR)) s.

(** A string that [strip] leaves alone and that holds no line break: what
    a line of a nodes file can hold. *)
Definition clean (s : string) : Prop :=
  no_newline s = true /\ strip s = s.

(** Lines joined, each followed by LF. *)
Fixpoint join_lines (l : list string) : string :=
  match l with
  | [] => EmptyString
  | n :: r => n +:+ String LF (join_lines r)
  end.

End Text.

(** ** Nodes file content *)

(** [write_nodes_file]: one [fh.write(f"{node}\n")] per node, on a file
    opened with mode ["w"] (truncated, so the buffer starts empty; on
    POSIX the newline is written as LF). *)
Definition write_nodes_file (ctdb_nodes : list string) : string :=
  fold_left (fun fh node => fh +:+ node +:+ String Text.LF EmptyString)
            ctdb_nodes EmptyString.

(** [read_nodes_file]: [entries.append(line.strip())] for each line. *)
Definition read_nodes_file (fh : string) : list string :=
  fold_left (fun entries line => entries ++ [Text.strip line])
            (Text.lines (Text.universal_newlines fh)) [].

(** ** Exceptions, state and the monad of effectful code *)

Inductive value_error :=
| DuplicatePnn                                   (* "duplicate pnn" *)
| ExpectedPnn (expected_pnn found_pnn : Z)       (* "expected pnn .. is not .." *)
| UnexpectedPnn (pnn : Z) (ctdb_nodes : list string). (* "unexpected pnn .. for nodes .." *)

Inductive exn :=
| FileNotFoundError
| FileExistsError
| TooManyLinks                    (* OSError, ELOOP *)
| ValueError (v : value_error)
| CalledProcessError (returncode : Z)
| NodeNotPresent
| Fail (msg : string).

Inductive result (A : Type) :=
| Ok (a : A)
| Raise (e : exn).
Arguments Ok {A} a.
Arguments Raise {A} e.

(** A computation over a mutable state [S] that returns or raises; the
    state reached when it raises is kept, as the effects of a Python
    function that raises half way are. *)
Definition ST (S A : Type) : Type := S -> result A * S.

#[export] Instance ST_ret {S} : MRet (ST S) := fun A a s => (Ok a, s).
#[export] Instance ST_bind {S} : MBind (ST S) := fun A B f m s =>
  match m s with
  | (Ok a, s') => f a s'
  | (Raise e, s') => (Raise e, s')
  end.

Definition raise {S A} (e : exn) : ST S A := fun s => (Raise e, s).
Definition get {S} : ST S S := fun s => (Ok s, s).
Definition modify {S} (f : S -> S) : ST S unit := fun s => (Ok tt, f s).

(** [try: m except <the exceptions h handles>: h e]. *)
Definition try_except {S A} (m : ST S A) (h : exn -> option (ST S A)) : ST S A :=
  fun s =>
    match m s with
    | (Raise e, s') =>
        match h e with
        | Some handler => handler s'
        | None => (Raise e, s')
        end
    | r => r
    end.

(** [for x in l: body x]. *)
Fixpoint for_ {S A} (l : list A) (body : A -> ST S unit) : ST S unit :=
  match l with
  | [] => mret tt
  | x :: r => body x ;; for_ r body
  end.

(** ** Python lists *)

(** [l[i]] for a Python int [i]: negative indices count from the end;
    [None] stands for IndexError. *)
Definition py_getitem {A} (l : list A) (i : Z) : option A :=
  if (0 <=? i)%Z then l !! Z.to_nat i
  else if (- Z.of_nat (length l) <=? i)%Z
       then l !! Z.to_nat (Z.of_nat (length l) + i)
       else None.

(** [l.index(x)]: the first position of [x]; [None] stands for ValueError. *)
Fixpoint py_index (x : string) (l : list string) : option nat :=
  match l with
  | [] => None
  | y :: r => if bool_decide (x = y) then Some 0%nat
              else S <$> py_index x r
  end.

(** ** The state the program acts on *)

(** One entry of the ["nodes"] list of the JSON state file. *)
Record entry := Entry { node : string; pnn : Z; in_nodes : bool }.

(** The JSON state document: a dict whose only key of interest is
    ["nodes"]; [None] when the key is absent (as in [{}]). *)
Record json_data := JsonData { json_nodes : option (list entry) }.

Inductive fnode :=
| File (content : string)
| Symlink (target : string).

(** Paths are flat keys: directories, permissions and encodings are not
    part of the model.
    - [fs]: text files and symbolic links;
    - [statefiles]: the JSON state files, by path, as the document they
      hold ([None] for an existing but empty file);
    - [ctdb_exit]: the exit status the ctdb command returns when run;
    - [reloads]: how many times [ctdb reloadnodes] has been run. *)
Record world := World {
  fs : gmap string fnode;
  statefiles : gmap string (option json_data);
  ctdb_exit : Z;
  reloads : nat
}.

Abbreviation M := (ST world).

Definition set_fs (f : gmap string fnode -> gmap string fnode) (w : world) : world :=
  World (f (fs w)) (statefiles w) (ctdb_exit w) (reloads w).
Definition set_statefiles
    (f : gmap string (option json_data) -> gmap string (option json_data))
    (w : world) : world :=
  World (fs w) (f (statefiles w)) (ctdb_exit w) (reloads w).
Definition set_ctdb_exit (z : Z) (w : world) : world :=
  World (fs w) (statefiles w) z (reloads w).

(** *** Files *)

Definition MAXSYMLINKS : nat := 40.

(** Follow symbolic links from [path]; [None] when more than [fuel] links
    are crossed (ELOOP). The result is a regular file or a free name. *)
Fixpoint resolve (fuel : nat) (files : gmap string fnode) (path : string)
  : option string :=
  match files !! path with
  | Some (Symlink target) =>
      match fuel with
      | O => None
      | S n => resolve n files target
      end
  | _ => Some path
  end.

(** [os.unlink(path)]: removes the name itself, link or file. *)
Definition os_unlink (path : string) : M unit := fun w =>
  match fs w !! path with
  | None => (Raise FileNotFoundError, w)
  | Some _ => (Ok tt, set_fs (delete path) w)
  end.

(** [os.symlink(src, dst)]. *)
Definition os_symlink (src dst : string) : M unit := fun w =>
  match fs w !! dst with
  | Some _ => (Raise FileExistsError, w)
  | None => (Ok tt, set_fs (insert dst (Symlink src)) w)
  end.

(** [with open(path, "r") as fh]: the whole content of the file. *)
Definition open_r (path : string) : M string := fun w =>
  match resolve MAXSYMLINKS (fs w) path with
  | None => (Raise TooManyLinks, w)
  | Some p =>
      match fs w !! p with
      | Some (File content) => (Ok content, w)
      | _ => (Raise FileNotFoundError, w)
      end
  end.

(** [with open(path, "w") as fh: fh.write(content)]: creates or truncates
    the file the path leads to. *)
Definition open_w (path : string) (content : string) : M unit := fun w =>
  match resolve MAXSYMLINKS (fs w) path with
  | None => (Raise TooManyLinks, w)
  | Some p => (Ok tt, set_fs (insert p (File content)) w)
  end.

(** ** [sambacc/ctdb.py]: the nodes file *)

Definition CTDB_NODES : string := "/etc/ctdb/nodes".

(** [read_ctdb_nodes]: the entries of the nodes file, [[]] when the file
    is not found. *)
Definition read_ctdb_nodes (path : string) : M (list string) :=
  try_except
    (fh ← open_r path; mret (read_nodes_file fh))
    (fun e => match e with
              | FileNotFoundError => Some (mret [])
              | _ => None
              end).

(** [ensure_ctdb_nodes]: re-point the canonical name at the real path,
    then write the real file. *)
Definition ensure_ctdb_nodes (ctdb_nodes : list string)
    (real_path canon_path : string) : M unit :=
  try_except (os_unlink canon_path)
    (fun e => match e with
              | FileNotFoundError => Some (mret tt)
              | _ => None
              end) ;;
  os_symlink real_path canon_path ;;
  open_w real_path (write_nodes_file ctdb_nodes).

(** [ensure_ctdb_node_present]. *)
Definition ensure_ctdb_node_present (node : string)
    (real_path canon_path : string) (expected_pnn : option Z) : M unit :=
  nodes ← read_ctdb_nodes real_path;
  let nodes := if bool_decide (node ∈ nodes) then nodes else nodes ++ [node] in
  match expected_pnn with
  | Some expected_pnn =>
      let found_pnn :=
        match py_index node nodes with
        | Some i => Z.of_nat i
        | None => (-1)%Z
        end in
      if bool_decide (expected_pnn ≠ found_pnn)
      then raise (ValueError (ExpectedPnn expected_pnn found_pnn))
      else mret tt
  | None => mret tt
  end ;;
  ensure_ctdb_nodes nodes real_path canon_path.

(** ** The JSON state file *)

Inductive open_mode := OPEN_RO | OPEN_RW.

(** Modelled from the spec: the [sambacc.jfile] module ([open], [flock],
    [load], [dump]) is not part of the sources at hand. The shared
    metadata store hands out the one document of a location: a strict
    (read-only) open fails when the location does not exist, a read-write
    open creates it empty; [load] returns the stored document, or the
    given default when nothing is stored; [dump] replaces the stored
    document. The lock is held for the whole [with] block, so a block runs
    without interleaving and the lock itself carries no state here. *)
Definition jfile_open (path : string) (mode : open_mode) : M unit := fun w =>
  match statefiles w !! path, mode with
  | Some _, _ => (Ok tt, w)
  | None, OPEN_RO => (Raise FileNotFoundError, w)
  | None, OPEN_RW => (Ok tt, set_statefiles (insert path None) w)
  end.

Definition jfile_load (path : string) (dflt : json_data) : M json_data := fun w =>
  match statefiles w !! path with
  | Some (Some data) => (Ok data, w)
  | _ => (Ok dflt, w)
  end.

Definition jfile_dump (data : json_data) (path : string) : M unit :=
  modify (set_statefiles (insert path (Some data))).

(** The empty dict [{}]. *)
Definition empty_dict : json_data := JsonData None.

(** [_update_statefile]: acts on the dict [data] in place. *)
Definition _update_statefile (node' : string) (pnn' : Z) (in_nodes' : bool)
  : ST json_data unit :=
  (* data.setdefault("nodes", []) *)
  modify (fun data => JsonData (Some (default [] (json_nodes data)))) ;;
  data ← get;
  for_ (default [] (json_nodes data)) (fun entry =>
    if bool_decide (pnn' = pnn entry)
    then raise (ValueError DuplicatePnn)
    else mret tt) ;;
  modify (fun data =>
    JsonData (Some (default [] (json_nodes data) ++ [Entry node' pnn' in_nodes']))).

(** Run a computation on a local object inside [M]: the outcome and the
    object as it was left. *)
Definition on_object {S A} (m : ST S A) (s : S) : M S := fun w =>
  match m s with
  | (Ok _, s') => (Ok s', w)
  | (Raise e, _) => (Raise e, w)
  end.

(** [add_node_to_statefile]. *)
Definition add_node_to_statefile (node : string) (pnn : Z) (path : string)
    (in_nodes : bool) : M unit :=
  jfile_open path OPEN_RW ;;
  data ← jfile_load path empty_dict;
  data ← on_object (_update_statefile node pnn in_nodes) data;
  jfile_dump data path.

(** The entries of the document stored at [path] ([[]] when there is
    no document, or no ["nodes"] key in it). *)
Definition entries_at (path : string) (w : world) : list entry :=
  match statefiles w !! path with
  | Some (Some data) => default [] (json_nodes data)
  | _ => []
  end.

(** Some entry carries the pnn [p]. *)
Definition has_pnn (p : Z) (entries : list entry) : bool :=
  existsb (fun e => bool_decide (p = pnn e)) entries.

(** Registrations run one after the other (each holds the lock of the
    state file from its load to its dump): how many of those for the pnn
    [p] succeed. *)
Fixpoint successes (p : Z) (path : string) (regs : list entry) (w : world) : nat :=
  match regs with
  | [] => 0
  | r :: regs' =>
      let '(res, w') := add_node_to_statefile (node r) (pnn r) path (in_nodes r) w in
      (match res with
       | Ok _ => if bool_decide (pnn r = p) then 1 else 0
       | Raise _ => 0
       end + successes p path regs' w')%nat
  end.

(** ** The node update check and commit *)

(** The local lists of [_node_update_check]. The entries collected in
    [need_reload] are the very dicts of [json_data["nodes"]], later
    mutated through that list: a reference is the position of the entry in
    [desired]. *)
Record check_vars := CheckVars {
  new_nodes : list string;
  need_reload : list nat
}.

(** The body of the loop of [_node_update_check], for the entry at
    position [i] of [desired]. *)
(** [matched]: [entry["node"] == ctdb_nodes[pnn]], false on IndexError. *)
Definition matched (ctdb_nodes : list string) (entry : entry) : bool :=
  match py_getitem ctdb_nodes (pnn entry) with
  | Some n => bool_decide (node entry = n)
  | None => false
  end.

(** The entries of a list with their positions, from position [k] on. *)
Fixpoint enumerate_from {A} (k : nat) (l : list A) : list (nat * A) :=
  match l with
  | [] => []
  | x :: r => (k, x) :: enumerate_from (S k) r
  end.

Definition check_entry (ctdb_nodes : list string) (ie : nat * entry)
  : ST check_vars unit :=
  let '(i, entry) := ie in
  if matched ctdb_nodes entry && in_nodes entry then mret tt
  else if negb (in_nodes entry) then
    modify (fun v => CheckVars (new_nodes v) (need_reload v ++ [i]))
  else if bool_decide (Z.of_nat (length ctdb_nodes) > pnn entry)%Z then
    raise (ValueError (UnexpectedPnn (pnn entry) ctdb_nodes))
  else
    modify (fun v => CheckVars (new_nodes v ++ [node entry]) (need_reload v ++ [i])).

(** [_node_update_check]: returns [(ctdb_nodes, new_nodes, need_reload)]. *)
Definition _node_update_check (json_data : json_data)
    (nodes_json real_path : string)
  : M (list string * list string * list nat) :=
  let desired := default [] (json_nodes json_data) in
  ctdb_nodes ← read_ctdb_nodes real_path;
  v ← on_object (for_ (enumerate_from 0 desired) (check_entry ctdb_nodes))
                (CheckVars [] []);
  mret (ctdb_nodes, new_nodes v, need_reload v).

(** [subprocess.check_call(list(samba_cmds.ctdb["reloadnodes"]))]. *)
Definition count_reload (w : world) : world :=
  World (fs w) (statefiles w) (ctdb_exit w) (S (reloads w)).

Definition ctdb_reloadnodes : M unit := fun w =>
  if bool_decide (ctdb_exit w = 0%Z) then (Ok tt, count_reload w)
  else (Raise (CalledProcessError (ctdb_exit w)), count_reload w).

(** An entry after [entry["in_nodes"] = True]. *)
Definition confirmed (e : entry) : entry := Entry (node e) (pnn e) true.

(** [entry["in_nodes"] = True] on the entry at position [i]. *)
Definition mark_in_nodes (i : nat) (data : json_data) : json_data :=
  JsonData (alter confirmed i <$> json_nodes data).

Definition is_empty {A} (l : list A) : bool :=
  match l with [] => true | _ => false end.

(** [_node_update]. *)
Definition _node_update (nodes_json real_path : string) : M bool :=
  jfile_open nodes_json OPEN_RO ;;
  json_data ← jfile_load nodes_json empty_dict;
  '(_, test_new_nodes, test_need_reload) ←
    _node_update_check json_data nodes_json real_path;
  if is_empty test_new_nodes && is_empty test_need_reload then mret false
  else
    jfile_open nodes_json OPEN_RW ;;
    json_data ← jfile_load nodes_json empty_dict;
    '(ctdb_nodes, new_nodes, need_reload) ←
      _node_update_check json_data nodes_json real_path;
    if is_empty new_nodes && is_empty need_reload then mret false
    else
      let all_nodes := ctdb_nodes ++ new_nodes in
      open_w real_path (write_nodes_file all_nodes) ;;
      ctdb_reloadnodes ;;
      let json_data := foldl (fun d i => mark_in_nodes i d) json_data need_reload in
      jfile_dump json_data nodes_json ;;
      mret true.

(** *** What the check computes, entry by entry *)

(** The entries on which the check raises: confirmed, not matched, and
    with a pnn below the length of the nodes list. *)
Definition out_of_order (ctdb_nodes : list string) (e : entry) : bool :=
  in_nodes e && negb (matched ctdb_nodes e)
  && bool_decide (Z.of_nat (length ctdb_nodes) > pnn e)%Z.

(** The addresses of the confirmed entries that are not matched. *)
Fixpoint appended (ctdb_nodes : list string) (desired : list entry) : list string :=
  match desired with
  | [] => []
  | e :: r =>
      if in_nodes e && negb (matched ctdb_nodes e)
      then node e :: appended ctdb_nodes r
      else appended ctdb_nodes r
  end.

(** The positions, counted from [k], of the entries that are not both
    matched and confirmed. *)
Fixpoint reload_refs (ctdb_nodes : list string) (k : nat) (desired : list entry)
  : list nat :=
  match desired with
  | [] => []
  | e :: r =>
      if matched ctdb_nodes e && in_nodes e
      then reload_refs ctdb_nodes (S k) r
      else k :: reload_refs ctdb_nodes (S k) r
  end.

(** The document stored at [path], as [jfile.load(fh, {})] returns it. *)
Definition document_at (path : string) (w : world) : json_data :=
  match statefiles w !! path with
  | Some (Some data) => data
  | _ => empty_dict
  end.

(** *** Scenarios *)

Definition world_nodes (ctdb_nodes : list string) : world :=
  World {["/nodes" := File (write_nodes_file ctdb_nodes)]} ∅ 0 0.

Definition doc_B : json_data :=
  JsonData (Some [Entry "10.0.0.10" 0 true; Entry "10.0.0.11" 1 false]).

Definition world_of (doc : json_data) (ctdb_nodes : list string) (exit : Z) : world :=
  World {["/nodes" := File (write_nodes_file ctdb_nodes)]}
        {["/nodes.json" := Some doc]} exit 0.

Definition doc_A : json_data :=
  JsonData (Some [Entry "10.0.0.10" 0 true]).

(** A confirmed entry whose pnn is ahead of the nodes list. *)
Definition doc_ahead : json_data :=
  JsonData (Some [Entry "10.0.0.10" 0 true; Entry "10.0.0.12" 2 true]).

(** What [read_ctdb_nodes] returns or raises in a world. *)
Definition nodes_file (path : string) (w : world) : result (list string) :=
  (read_ctdb_nodes path w).1.

(** The world once a commit has written the nodes file (at [r], where
    the real path leads) and run the reload. *)
Definition nodes_committed (r : string) (cn : list string)
    (desired : list entry) (w : world) : world :=
  count_reload
    (set_fs (insert r (File (write_nodes_file (cn ++ appended cn desired)))) w).

(** The ways a pass can end, with the world it leaves. *)
Inductive pass_end (nodes_json real_path : string) (w : world)
  : result bool -> world -> Prop :=
| pass_no_statefile :
    statefiles w !! nodes_json = None ->
    pass_end nodes_json real_path w (Raise FileNotFoundError) w
| pass_unreadable od :
    statefiles w !! nodes_json = Some od ->
    nodes_file real_path w = Raise TooManyLinks ->
    pass_end nodes_json real_path w (Raise TooManyLinks) w
| pass_out_of_order od cn e :
    statefiles w !! nodes_json = Some od ->
    read_ctdb_nodes real_path w = (Ok cn, w) ->
    List.find (out_of_order cn) (entries_at nodes_json w) = Some e ->
    pass_end nodes_json real_path w
      (Raise (ValueError (UnexpectedPnn (pnn e) cn))) w
| pass_no_changes od cn :
    statefiles w !! nodes_json = Some od ->
    read_ctdb_nodes real_path w = (Ok cn, w) ->
    List.find (out_of_order cn) (entries_at nodes_json w) = None ->
    appended cn (entries_at nodes_json w) = [] ->
    reload_refs cn 0 (entries_at nodes_json w) = [] ->
    pass_end nodes_json real_path w (Ok false) w
| pass_commit od cn r :
    statefiles w !! nodes_json = Some od ->
    read_ctdb_nodes real_path w = (Ok cn, w) ->
    resolve MAXSYMLINKS (fs w) real_path = Some r ->
    List.find (out_of_order cn) (entries_at nodes_json w) = None ->
    reload_refs cn 0 (entries_at nodes_json w) ≠ [] ->
    pass_end nodes_json real_path w
      (if bool_decide (ctdb_exit w = 0%Z) then Ok true
       else Raise (CalledProcessError (ctdb_exit w)))
      (if bool_decide (ctdb_exit w = 0%Z)
       then set_statefiles
              (insert nodes_json
                 (Some (JsonData (Some (map confirmed
                                          (entries_at nodes_json w))))))
              (nodes_committed r cn (entries_at nodes_json w) w)
       else nodes_committed r cn (entries_at nodes_json w) w).

(** ** [sambacc/commands/ctdb.py] *)

(** [_ctdb_ok]: the gate on the environment variable SAMBACC_CTDB. *)
Definition _ctdb_ok (sambacc_ctdb : option string) : M unit :=
  let gate := "ctdb-is-experimental"%string in
  if bool_decide (sambacc_ctdb = Some gate) then mret tt else raise (Fail gate).

(** Modelled from the spec: [ctdb.refresh_node_in_cluster_meta] is called
    by [ctdb_set_node] but is not part of the sources at hand. "If an
    entry for identity/claimedPnn already exists and matches: succeed as a
    no-op refresh"; a node absent from the document is reported with
    NodeNotPresent, "so callers can fall back to registration". An entry
    of the document carries an address, a pnn and a flag, so an entry
    matches when it has the claimed pnn and the given address. The
    document is read without demanding that it exists. *)
Definition refresh_node_in_cluster_meta (cmeta identity node' : string)
    (pnn' : Z) : M unit :=
  data ← jfile_load cmeta empty_dict;
  if existsb (fun e => bool_decide (pnn e = pnn') && bool_decide (node e = node'))
             (default [] (json_nodes data))
  then mret tt
  else raise NodeNotPresent.

(** Modelled from the spec: [ctdb.add_node_to_cluster_meta] is called by
    [ctdb_set_node] but is not part of the sources at hand. "If absent:
    append a new Node Entry"; "Duplicate-pnn collisions fail with a
    DuplicatePnn error": what [add_node_to_statefile] does on the state
    file. *)
Definition add_node_to_cluster_meta (cmeta identity node' : string)
    (pnn' : Z) (in_nodes' : bool) : M unit :=
  add_node_to_statefile node' pnn' cmeta in_nodes'.

(** [ctdb_set_node], on the values [NodeParams] derives from the command
    line: the location of the cluster meta document, the identity, the
    address and the node number of this node, and the nodes file path. *)
Definition ctdb_set_node (sambacc_ctdb : option string)
    (cmeta identity node_ip_addr : string) (node_number : option Z)
    (persistent_path : string) : M unit :=
  _ctdb_ok sambacc_ctdb ;;
  let expected_pnn := node_number in
  let pnn_or_0 := default 0%Z expected_pnn in      (* int(expected_pnn or 0) *)
  refreshed ← try_except
    (refresh_node_in_cluster_meta cmeta identity node_ip_addr pnn_or_0 ;;
     mret true)
    (fun e => match e with
              | NodeNotPresent => Some (mret false)
              | _ => None
              end);
  if (refreshed : bool) then mret tt
  else
    add_node_to_cluster_meta cmeta identity node_ip_addr pnn_or_0
      (bool_decide (expected_pnn = Some 0%Z)) ;;
    if bool_decide (expected_pnn = Some 0%Z)
    then ensure_ctdb_node_present node_ip_addr persistent_path CTDB_NODES
           expected_pnn
    else mret tt.

(** *** The retry loop of [ctdb_manage_nodes] *)

(** What one call of [ctdb.monitor_cluster_meta_updates] (not part of the
    sources at hand) does, as far as the loop can tell: it returns, it
    raises an [Exception], or it raises KeyboardInterrupt. *)
Inductive outcome :=
| Returns
| RaisesException (err : exn)
| RaisesKeyboardInterrupt.

Definition is_exception (o : outcome) : bool :=
  match o with RaisesException _ => true | _ => false end.

(** How the loop stands after the calls observed so far. *)
Inductive loop_state :=
| Looping (errors : nat) (waits : nat)   (* still in [while True] *)
| Propagated (err : exn)                 (* the bare [raise] after "giving up" *)
| Interrupted.                           (* KeyboardInterrupt re-raised *)

(** One turn of the [while True] loop, from the top of the [try]. *)
Definition loop_turn (o : outcome) (errors waits : nat) : loop_state :=
  match o with
  | Returns => Looping 0 waits                       (* errors = 0 *)
  | RaisesKeyboardInterrupt => Interrupted
  | RaisesException err =>
      let errors := S errors in                      (* errors += 1 *)
      if (10 <? errors)%nat then Propagated err      (* if errors > 10: raise *)
      else Looping errors (S waits)                  (* waiter.wait() *)
  end.

(** The loop over the outcomes of the successive calls. *)
Fixpoint manage_nodes_loop (calls : list outcome) (errors waits : nat)
  : loop_state :=
  match calls with
  | [] => Looping errors waits
  | o :: calls' =>
      match loop_turn o errors waits with
      | Looping errors' waits' => manage_nodes_loop calls' errors' waits'
      | st => st
      end
  end.

(** [ctdb_manage_nodes]: the gate, then [errors = 0] and the loop. *)
Definition ctdb_manage_nodes (sambacc_ctdb : option string)
    (calls : list outcome) : loop_state :=
  let gate := "ctdb-is-experimental"%string in
  if bool_decide (sambacc_ctdb = Some gate) then manage_nodes_loop calls 0 0
  else Propagated (Fail gate).

(** Ten calls in a row that fail. *)
Definition ten_failures : list outcome :=
  replicate 10 (RaisesException (CalledProcessError 1)).

(** * More of [sambacc/ctdb.py] *)

(** ** Queries on the state file and the monitoring loop *)

(** [pnn_in_nodes]: the loop returns True at the first entry that carries
    the pnn and is confirmed, False when there is none. *)
Definition pnn_in_nodes (pnn' : Z) (nodes_json real_path : string) : M bool :=
  jfile_open nodes_json OPEN_RO ;;
  json_data ← jfile_load nodes_json empty_dict;
  let current_nodes := default [] (json_nodes json_data) in
  mret (existsb (fun entry => bool_decide (pnn' = pnn entry) && in_nodes entry)
                current_nodes).

(** [_node_check]: [my_desired] is the first entry with the pnn; an empty
    comprehension raises IndexError, which the function turns into False. *)
Definition _node_check (pnn' : Z) (nodes_json real_path : string) : M bool :=
  jfile_open nodes_json OPEN_RO ;;
  json_data ← jfile_load nodes_json empty_dict;
  let desired := default [] (json_nodes json_data) in
  ctdb_nodes ← read_ctdb_nodes real_path;
  match List.filter (fun e => bool_decide (pnn e = pnn')) desired with
  | [] => mret false
  | my_desired :: _ =>
      if bool_decide (node my_desired ∈ ctdb_nodes) then mret true
      else mret false
  end.

(** One turn of the [while True] loop of [manage_nodes]. *)
Definition manage_nodes_turn (pnn' : Z) (nodes_json real_path : string)
    (pause_func : M unit) : M unit :=
  able ← _node_check pnn' nodes_json real_path;
  (if (able : bool)
   then _node_update nodes_json real_path ;; mret tt
   else mret tt) ;;
  pause_func.

(** [manage_nodes], for [turns] turns of its loop: the loop has no exit
    but an exception, so the computation either raises or is still in the
    loop (it returns here) after the given turns. *)
Fixpoint manage_nodes (turns : nat) (pnn' : Z) (nodes_json real_path : string)
    (pause_func : M unit) : M unit :=
  match turns with
  | O => mret tt
  | S n =>
      manage_nodes_turn pnn' nodes_json real_path pause_func ;;
      manage_nodes n pnn' nodes_json real_path pause_func
  end.

(** The pnns of a list of entries. *)
Definition pnns (entries : list entry) : list Z := map pnn entries.

(** ** Configuration files *)

(** A line break, as a string. *)
Definition nl : string := String Text.LF EmptyString.

(** [write_ctdb_conf]: [ctdb_params] maps a key to its value as it
    prints, or to [None]; a key that is absent or maps to [None] writes
    nothing. Returns what is written to [fh]. *)
Definition write_ctdb_conf (ctdb_params : gmap string (option string)) : string :=
  let _write_param (fh name key : string) : string :=
    match ctdb_params !! key with
    | Some (Some value) => fh +:+ name +:+ " = " +:+ value +:+ nl
    | _ => fh
    end in
  let fh := EmptyString in
  let fh := fh +:+ "[logging]" +:+ nl in
  let fh := _write_param fh "log level" "log_level" in
  let fh := fh +:+ nl in
  let fh := fh +:+ "[cluster]" +:+ nl in
  let fh := _write_param fh "recovery lock" "recovery_lock" in
  let fh := fh +:+ nl in
  let fh := fh +:+ "[legacy]" +:+ nl in
  let fh := _write_param fh "realtime scheduling" "realtime_scheduling" in
  let fh := _write_param fh "script log level" "script_log_level" in
  let fh := fh +:+ nl in
  fh.

(** [ensure_ctdb_conf], given the dict [iconfig.ctdb_config()] returns. *)
Definition ensure_ctdb_conf (ctdb_config : gmap string (option string))
    (path : string) : M unit :=
  open_w path (write_ctdb_conf ctdb_config).

(** The value of a key, as [ctdb_params.get(key)] tested against None. *)
Definition param (ctdb_params : gmap string (option string)) (key : string)
  : option string :=
  match ctdb_params !! key with
  | Some (Some value) => Some value
  | _ => None
  end.

(** The line of a parameter, if it has a value. *)
Definition param_line (ctdb_params : gmap string (option string))
    (name key : string) : list string :=
  match param ctdb_params key with
  | Some value => [name +:+ " = " +:+ value]
  | None => []
  end.

(** The lines of a ctdb.conf, without their line breaks. *)
Definition ctdb_conf_lines (ctdb_params : gmap string (option string))
  : list string :=
  ["[logging]"%string] ++ param_line ctdb_params "log level" "log_level"
  ++ [""%string; "[cluster]"%string]
  ++ param_line ctdb_params "recovery lock" "recovery_lock"
  ++ [""%string; "[legacy]"%string]
  ++ param_line ctdb_params "realtime scheduling" "realtime_scheduling"
  ++ param_line ctdb_params "script log level" "script_log_level"
  ++ [""%string].

(** The keys [write_ctdb_conf] looks up. *)
Definition ctdb_conf_keys : list string :=
  ["log_level"; "recovery_lock"; "realtime_scheduling"; "script_log_level"]%string.

(** ** Paths *)

(** The last character of [s] is a slash. *)
Fixpoint ends_with_slash (s : string) : bool :=
  match s with
  | EmptyString => false
  | String c EmptyString => Ascii.eqb c "/"
  | String _ r => ends_with_slash r
  end.

(** [os.path.join(a, b)] (posixpath). *)
Definition path_join (a b : string) : string :=
  if String.prefix "/" b then b
  else if bool_decide (a = EmptyString) || ends_with_slash a then a +:+ b
  else a +:+ "/" +:+ b.

(** A directory name as a prefix: with a slash at its end unless it is
    empty or has one. *)
Definition dir_prefix (a : string) : string :=
  if bool_decide (a = EmptyString) || ends_with_slash a then a else a +:+ "/".

(** [os.path.basename(p)]: what follows the last slash. *)
Fixpoint basename (p : string) : string :=
  match p with
  | EmptyString => EmptyString
  | String c r =>
      if Ascii.eqb c "/" then basename r
      else if Text.all_chars (fun c' => negb (Ascii.eqb c' "/")) r then p
      else basename r
  end.

(** No slash in [s]. *)
Definition no_slash (s : string) : bool :=
  Text.all_chars (fun c => negb (Ascii.eqb c "/")) s.

(** [str(n)] for an int. *)
Definition py_str_int (n : Z) : string :=
  DecimalString.NilEmpty.string_of_int (Z.to_int n).

(** ** Support files of ctdbd *)




(** ** Migration of TDB files *)

Definition _SRC_TDB_FILES : list string :=
  ["account_policy.tdb"; "group_mapping.tdb"; "passdb.tdb"; "registry.tdb";
   "secrets.tdb"; "share_info.td"; "winbindd_idmap.tdb"]%string.

Definition _SRC_TDB_DIRS : list string :=
  ["/var/lib/samba"; "/var/lib/samba/private"]%string.

(** What [migrate_tdb] acts on: the files, the exit status [ltdbtool
    convert -s0 src dst] returns for given arguments, and the conversions
    run so far, as (source, destination). What the tool itself writes is
    outside the program. *)
Record tdb_world := TdbWorld {
  tdb_files : gmap string fnode;
  ltdbtool_exit : string -> string -> Z;
  conversions : list (string * string)
}.

(** [os.path.isfile(path)]: follows links; False on any error. *)
Definition isfile (files : gmap string fnode) (path : string) : bool :=
  match resolve MAXSYMLINKS files path with
  | Some p => match files !! p with Some (File _) => true | _ => false end
  | None => false
  end.

Definition _has_tdb_file (tdb_path : string) : ST tdb_world bool := fun w =>
  (Ok (isfile (tdb_files w) tdb_path), w).

(** The destination [_convert_tdb_file] gives a file. *)
Definition tdb_opath (tdb_path dest_dir : string) (pnn' : Z) : string :=
  let orig_name := basename tdb_path in
  path_join dest_dir (orig_name +:+ "." +:+ py_str_int pnn').

Definition _convert_tdb_file (tdb_path dest_dir : string) (pnn' : Z)
  : ST tdb_world unit := fun w =>
  let opath := tdb_opath tdb_path dest_dir pnn' in
  let w' := TdbWorld (tdb_files w) (ltdbtool_exit w)
                     (conversions w ++ [(tdb_path, opath)]) in
  let returncode := ltdbtool_exit w tdb_path opath in
  if bool_decide (returncode = 0%Z) then (Ok tt, w')
  else (Raise (CalledProcessError returncode), w').

(** [migrate_tdb]; its [iconfig] argument is not used by the code. *)
Definition migrate_tdb (dest_dir : string) (pnn' : Z) : ST tdb_world unit :=
  for_ _SRC_TDB_FILES (fun tdbfile =>
    for_ _SRC_TDB_DIRS (fun parent =>
      let tdb_path := path_join parent tdbfile in
      has ← _has_tdb_file tdb_path;
      if (has : bool) then _convert_tdb_file tdb_path dest_dir pnn'
      else mret tt)).

(** The paths [migrate_tdb] looks at, in the order it does. *)
Definition tdb_candidates : list string :=
  flat_map (fun tdbfile => map (fun parent => path_join parent tdbfile)
                               _SRC_TDB_DIRS)
           _SRC_TDB_FILES.

(** The conversions to run, given the files there are. *)
Definition tdb_todo (files : gmap string fnode) (dest_dir : string) (pnn' : Z)
  : list (string * string) :=
  map (fun p => (p, tdb_opath p dest_dir pnn'))
      (List.filter (isfile files) tdb_candidates).

(** The conversions of a list that are run, up to and with the first
    that fails, and the exit status of that one. *)
Fixpoint conversions_run (exit : string -> string -> Z)
    (todo : list (string * string)) : list (string * string) * option Z :=
  match todo with
  | [] => ([], None)
  | (src, dst) :: rest =>
      if bool_decide (exit src dst = 0%Z)
      then let '(run, failed) := conversions_run exit rest in
           ((src, dst) :: run, failed)
      else ([(src, dst)], Some (exit src dst))
  end.

(** Three files, two of them with names [migrate_tdb] looks for. *)
Definition tdb_world_ex (exit : string -> string -> Z) : tdb_world :=
  TdbWorld {[ "/var/lib/samba/registry.tdb" := File "fake";
              "/var/lib/samba/private/passdb.tdb" := File "fake";
              "/var/lib/samba/mango.tdb" := File "fake" ]} exit [].

(** ** [NodeParams] of [sambacc/commands/ctdb.py] *)

(** The property [identity]: [hostname] and [node_number] are optional,
    and an empty host name or the number 0 count as unset. *)
Definition identity (hostname : option string) (node_number : option Z) : string :=
  match hostname with
  | Some h =>
      if negb (bool_decide (h = EmptyString)) then h
      else match node_number with
           | Some n => if negb (bool_decide (n = 0%Z))
                       then "node-" +:+ py_str_int n else "-unknown-"
           | None => "-unknown-"
           end
  | None =>
      match node_number with
      | Some n => if negb (bool_decide (n = 0%Z))
                  then "node-" +:+ py_str_int n else "-unknown-"
      | None => "-unknown-"
      end
  end.

(** [s.rstrip("/")]. *)
Fixpoint rstrip_slash (s : string) : string :=
  match s with
  | EmptyString => EmptyString
  | String c r =>
      match rstrip_slash r with
      | EmptyString => if Ascii.eqb c "/" then EmptyString
                       else String c EmptyString
      | r' => String c r'
      end
  end.

(** [s.split(":", 1)[-1]]: what follows the first colon, or all of [s]
    when it holds none. *)
Fixpoint after_first_colon (s : string) : string :=
  match s with
  | EmptyString => EmptyString
  | String c r =>
      if Ascii.eqb c ":" then r
      else if Text.all_chars (fun c' => negb (Ascii.eqb c' ":")) r then s
      else after_first_colon r
  end.

(** The objects [_cluster_meta_init] stores. *)
Inductive cluster_meta :=
| ClusterMetaRADOSObject (uri : string)
| ClusterMetaJSONFile (path : string).

Inductive waiter :=
| Sleeper
| best_waiter (path : string).

(** [_cluster_meta_init], given [rados_opener.is_rados_uri] (that module
    is not among the sources): the cluster meta object and the waiter. *)
Definition _cluster_meta_init (is_rados_uri : string -> bool) (uri : string)
  : cluster_meta * waiter :=
  if is_rados_uri uri then (ClusterMetaRADOSObject uri, Sleeper)
  else
    let path := if String.prefix "file:" uri then after_first_colon uri
                else uri in
    let path := if String.prefix "/" path
                then "/" +:+ rstrip_slash path   (* "ensure one leading /" *)
                else path in
    (ClusterMetaJSONFile path, best_waiter path).

(** ** [sambacc/netcmd_loader.py]: the smb.conf template *)

(** What [template_config] reads from an instance configuration: the
    pairs [iconfig.global_options()] yields and, for each share of
    [iconfig.shares()], its name and the pairs [share.share_options()]
    yields, values as they print. *)
Record share := Share {
  share_name : string;
  share_options : list (string * string)
}.

Record instance_config := InstanceConfig {
  global_options : list (string * string);
  shares : list share
}.

Definition TAB : string := String (ascii_of_nat 9) EmptyString.

(** [template_config]: what is written to [fh]. *)
Definition template_config (iconfig : instance_config) : string :=
  let fh := EmptyString in
  let fh := fh +:+ "[global]" +:+ nl in
  let fh := fold_left (fun fh '(gkey, gval) =>
                         fh +:+ TAB +:+ gkey +:+ " = " +:+ gval +:+ nl)
                      (global_options iconfig) fh in
  fold_left (fun fh share =>
               let fh := fh +:+ nl +:+ "[" +:+ share_name share +:+ "]" +:+ nl in
               fold_left (fun fh '(skey, sval) =>
                            fh +:+ TAB +:+ skey +:+ " = " +:+ sval +:+ nl)
                         (share_options share) fh)
            (shares iconfig) fh.

(** [write_smb_conf], given what [iconfig.ctdb_smb_config()] returns. *)
Definition write_smb_conf (ctdb_smb_config : instance_config) : string :=
  template_config ctdb_smb_config.

(** [ensure_smb_conf], given what [iconfig.ctdb_smb_config()] returns. *)
Definition ensure_smb_conf (ctdb_smb_config : instance_config) (path : string)
  : M unit :=
  open_w path (write_smb_conf ctdb_smb_config).

(** The line of an option, without its line break. *)
Definition option_line (kv : string * string) : string :=
  TAB +:+ kv.1 +:+ " = " +:+ kv.2.

(** The lines of a share section, without their line breaks. *)
Definition share_lines (s : share) : list string :=
  [EmptyString; "[" +:+ share_name s +:+ "]"] ++ map option_line (share_options s).

(** The lines of the template, without their line breaks. *)
Definition template_lines (iconfig : instance_config) : list string :=
  ["[global]"%string] ++ map option_line (global_options iconfig)
  ++ flat_map share_lines (shares iconfig).
(** * Properties *)

Example write_nodes_file_ex :
  write_nodes_file ["10.0.0.10"; "10.0.0.11"]%string
  = ("10.0.0.10" +:+ String Text.LF "10.0.0.11" +:+ String Text.LF "")%string.
Proof. reflexivity. Qed.

Example read_nodes_file_ex :
  read_nodes_file (" 10.0.0.10 " +:+ String Text.CR (String Text.LF "10.0.0.11"))%string
  = ["10.0.0.10"; "10.0.0.11"]%string.
Proof. reflexivity. Qed.

(** ** Text *)

Section TextFacts.
Import Text.
Local Arguments String.append !_ _ : simpl nomatch.

Lemma append_assoc (a b c : string) : (a +:+ b) +:+ c = a +:+ (b +:+ c).
Proof. induction a as [|x a IH]; simpl; [done | by rewrite IH]. Qed.

Lemma append_empty_r (a : string) : a +:+ EmptyString = a.
Proof. induction a as [|x a IH]; simpl; [done | by rewrite IH]. Qed.

Lemma all_chars_append p (a b : string) :
  all_chars p (a +:+ b) = all_chars p a && all_chars p b.
Proof.
  induction a as [|x a IH]; simpl; [done |].
  rewrite IH. by destruct (p x).
Qed.

Lemma all_chars_impl (p q : ascii -> bool) (s : string) :
  (forall c, p c = true -> q c = true) ->
  all_chars p s = true -> all_chars q s = true.
Proof.
  intros Hpq. induction s as [|x s IH]; simpl; [done |].
  intros [Hx Hs]%andb_true_iff. rewrite (Hpq _ Hx). simpl. auto.
Qed.

Lemma isspace_LF : isspace LF = true.
Proof. reflexivity. Qed.

Lemma isspace_CR : isspace CR = true.
Proof. reflexivity. Qed.

Lemma no_whitespace_no_newline (s : string) :
  no_whitespace s = true -> no_newline s = true.
Proof.
  apply all_chars_impl. intros c Hc.
  destruct (Ascii.eqb_spec c LF) as [->|_]; [by rewrite isspace_LF in Hc |].
  destruct (Ascii.eqb_spec c CR) as [->|_]; [by rewrite isspace_CR in Hc |].
  done.
Qed.

Lemma rstrip_no_whitespace (s : string) :
  no_whitespace s = true -> rstrip s = s.
Proof.
  induction s as [|x s IH]; simpl; [done |].
  intros [Hx Hs]%andb_true_iff. rewrite (IH Hs).
  apply negb_true_iff in Hx. rewrite Hx. by destruct s.
Qed.

Lemma lstrip_no_whitespace (s : string) :
  no_whitespace s = true -> lstrip s = s.
Proof.
  destruct s as [|x s]; simpl; [done |].
  intros [Hx _]%andb_true_iff. apply negb_true_iff in Hx. by rewrite Hx.
Qed.

Lemma no_whitespace_clean (s : string) : no_whitespace s = true -> clean s.
Proof.
  intros H. split; [by apply no_whitespace_no_newline |].
  unfold strip. rewrite rstrip_no_whitespace by done.
  by apply lstrip_no_whitespace.
Qed.

(** A trailing whitespace character is invisible to [rstrip]. *)
Lemma rstrip_snoc_space (s : string) (c : ascii) :
  isspace c = true -> rstrip (s +:+ String c EmptyString) = rstrip s.
Proof.
  intros Hc. induction s as [|x s IH]; simpl.
  - by rewrite Hc.
  - by rewrite IH.
Qed.

Lemma strip_line (s : string) :
  strip (s +:+ String LF EmptyString) = strip s.
Proof. unfold strip. by rewrite rstrip_snoc_space. Qed.

(** Universal newlines leaves a text without CR alone. *)
Lemma universal_newlines_no_CR (s : string) :
  all_chars (fun c => negb (Ascii.eqb c CR)) s = true ->
  universal_newlines s = s.
Proof.
  induction s as [|x s IH]; simpl; [done |].
  intros [Hx Hs]%andb_true_iff. apply negb_true_iff in Hx.
  rewrite Hx. by rewrite IH.
Qed.

Lemma write_nodes_file_acc (l : list string) (acc : string) :
  fold_left (fun fh node => fh +:+ node +:+ String LF EmptyString) l acc
  = acc +:+ join_lines l.
Proof.
  revert acc. induction l as [|n l IH]; intros acc; simpl.
  - by rewrite append_empty_r.
  - rewrite IH. rewrite !append_assoc. simpl. done.
Qed.

Lemma write_nodes_file_join (l : list string) :
  write_nodes_file l = join_lines l.
Proof. unfold write_nodes_file. by rewrite write_nodes_file_acc. Qed.

Lemma read_nodes_file_acc (ls acc : list string) :
  fold_left (fun entries line => entries ++ [strip line]) ls acc
  = acc ++ map strip ls.
Proof.
  revert acc. induction ls as [|x ls IH]; intros acc; simpl.
  - by rewrite app_nil_r.
  - rewrite IH. by rewrite <- app_assoc.
Qed.

Lemma read_nodes_file_map (fh : string) :
  read_nodes_file fh = map strip (lines (universal_newlines fh)).
Proof. unfold read_nodes_file. by rewrite read_nodes_file_acc. Qed.

Lemma lines_line (n rest : string) :
  all_chars (fun c => negb (Ascii.eqb c LF)) n = true ->
  lines (n +:+ String LF rest) = (n +:+ String LF EmptyString) :: lines rest.
Proof.
  induction n as [|x n IH]; simpl.
  - intros _. done.
  - intros [Hx Hn]%andb_true_iff. apply negb_true_iff in Hx.
    rewrite Hx. by rewrite (IH Hn).
Qed.

Lemma no_newline_split (s : string) :
  no_newline s = true ->
  all_chars (fun c => negb (Ascii.eqb c LF)) s = true
  /\ all_chars (fun c => negb (Ascii.eqb c CR)) s = true.
Proof.
  intros H. split; revert H; apply all_chars_impl; intros c;
    by intros [? ?]%andb_true_iff.
Qed.

Lemma lines_join_lines (l : list string) :
  Forall (fun n => no_newline n = true) l ->
  lines (join_lines l) = map (fun n => n +:+ String LF EmptyString) l.
Proof.
  induction 1 as [|n l Hn _ IH]; simpl; [done |].
  rewrite lines_line by (by apply no_newline_split). by rewrite IH.
Qed.

Lemma join_lines_no_CR (l : list string) :
  Forall (fun n => no_newline n = true) l ->
  all_chars (fun c => negb (Ascii.eqb c CR)) (join_lines l) = true.
Proof.
  induction 1 as [|n l Hn _ IH]; simpl; [done |].
  rewrite all_chars_append. simpl. rewrite IH.
  by rewrite (proj2 (no_newline_split _ Hn)).
Qed.

(** Reading back what was written, for clean entries. *)
Lemma read_write_clean (l : list string) :
  Forall clean l -> read_nodes_file (write_nodes_file l) = l.
Proof.
  intros Hl.
  assert (Hnl : Forall (fun n => no_newline n = true) l).
  { eapply Forall_impl; [exact Hl |]. by intros n [? _]. }
  rewrite write_nodes_file_join, read_nodes_file_map.
  rewrite universal_newlines_no_CR by (by apply join_lines_no_CR).
  rewrite lines_join_lines by done.
  rewrite map_map. clear Hnl.
  induction Hl as [|n l [_ Hn] _ IH]; simpl; [done |].
  rewrite strip_line, Hn. by rewrite IH.
Qed.

(** *** What [read_nodes_file] returns is clean *)

Lemma rstrip_idem (s : string) : rstrip (rstrip s) = rstrip s.
Proof.
  induction s as [|c r IH]; simpl; [done |].
  destruct (rstrip r) as [|d q] eqn:E.
  - destruct (isspace c) eqn:Hc; simpl; [done | by rewrite Hc].
  - simpl in *. by rewrite IH.
Qed.

Lemma lstrip_idem (s : string) : lstrip (lstrip s) = lstrip s.
Proof.
  induction s as [|c r IH]; simpl; [done |].
  destruct (isspace c) eqn:Hc; [done |]. simpl. by rewrite Hc.
Qed.

Lemma rstrip_lstrip (t : string) : rstrip t = t -> rstrip (lstrip t) = lstrip t.
Proof.
  induction t as [|c r IH]; [done |].
  intros H. cbn [lstrip]. destruct (isspace c) eqn:Hc; [| exact H].
  apply IH. simpl in H. rewrite Hc in H.
  destruct (rstrip r) as [|d q] eqn:E; [done |]. by injection H.
Qed.

Lemma strip_idem (s : string) : strip (strip s) = strip s.
Proof.
  unfold strip. rewrite rstrip_lstrip by apply rstrip_idem.
  apply lstrip_idem.
Qed.

Lemma all_chars_lstrip p (s : string) :
  all_chars p s = true -> all_chars p (lstrip s) = true.
Proof.
  induction s as [|c r IH]; simpl; [done |].
  intros [Hc Hr]%andb_true_iff.
  destruct (isspace c); [auto |]. simpl. by rewrite Hc, Hr.
Qed.

Lemma all_chars_rstrip p (s : string) :
  all_chars p s = true -> all_chars p (rstrip s) = true.
Proof.
  induction s as [|c r IH]; simpl; [done |].
  intros [Hc Hr]%andb_true_iff. specialize (IH Hr).
  destruct (rstrip r) as [|d q].
  - destruct (isspace c); simpl; [done | by rewrite Hc].
  - simpl in *. by rewrite Hc, IH.
Qed.

Lemma clean_strip (s : string) : no_newline s = true -> clean (strip s).
Proof.
  intros H. split; [| apply strip_idem].
  unfold strip. by apply all_chars_lstrip, all_chars_rstrip.
Qed.

Lemma universal_newlines_CR_free (s : string) :
  all_chars (fun c => negb (Ascii.eqb c CR)) (universal_newlines s) = true.
Proof.
  set (P := fun t => all_chars (fun c => negb (Ascii.eqb c CR)) t = true).
  assert (H : P (universal_newlines s)
              /\ forall c r, s = String c r -> P (universal_newlines r));
    [| by destruct H].
  induction s as [|c r [IH1 IH2]]; [split; [done | by intros]|].
  split; [| by intros c0 r0 [= _ <-]].
  unfold P in *. simpl.
  destruct (Ascii.eqb c CR) eqn:Hc.
  - destruct r as [|c' r']; [done |].
    destruct (Ascii.eqb c' LF); simpl; [by apply (IH2 c' r') | exact IH1].
  - simpl. by rewrite Hc, IH1.
Qed.

(** A line of a text without CR: a body without line break, with or
    without the LF that ends it. *)
Lemma lines_shape (s : string) :
  all_chars (fun c => negb (Ascii.eqb c CR)) s = true ->
  Forall (fun l => exists body, no_newline body = true
                     /\ (l = body \/ l = body +:+ String LF EmptyString))
         (lines s).
Proof.
  induction s as [|c r IH]; simpl; [by constructor |].
  intros [Hc Hr]%andb_true_iff. specialize (IH Hr).
  destruct (Ascii.eqb c LF) eqn:Hlf.
  - constructor; [| done]. exists EmptyString. split; [done | by right].
  - destruct (lines r) as [|l ls].
    + constructor; [| done]. exists (String c EmptyString). split; [| by left].
      unfold no_newline. simpl. by rewrite Hlf, Hc.
    + inversion IH as [|? ? (body & Hb & Hl) Hls]; subst.
      constructor; [| done]. exists (String c body). split.
      * unfold no_newline in *. simpl. by rewrite Hlf, Hc, Hb.
      * destruct Hl as [->| ->]; [by left | by right].
Qed.

Lemma read_nodes_file_clean (fh : string) : Forall clean (read_nodes_file fh).
Proof.
  rewrite read_nodes_file_map.
  pose proof (lines_shape _ (universal_newlines_CR_free fh)) as H.
  induction H as [|l ls (body & Hb & Hl) _ IH]; simpl; constructor; [| done].
  destruct Hl as [->| ->]; [| rewrite strip_line]; by apply clean_strip.
Qed.

End TextFacts.

(** ** Files *)

Ltac unfold_st :=
  unfold mbind, ST_bind, mret, ST_ret, raise, modify, get, try_except,
    on_object in *.

Lemma resolve_final (n : nat) (files : gmap string fnode) (p r t : string) :
  resolve n files p = Some r -> files !! r ≠ Some (Symlink t).
Proof.
  revert p. induction n as [|n IH]; intros p; simpl.
  - destruct (files !! p) as [[c|t']|] eqn:E; intros [= <-]; by rewrite E.
  - destruct (files !! p) as [[c|t']|] eqn:E;
      [intros [= <-]; by rewrite E | apply IH | intros [= <-]; by rewrite E].
Qed.

(** Writing the file a path leads to does not change where it leads. *)
Lemma resolve_insert_file (n : nat) (files : gmap string fnode)
    (p r c : string) :
  resolve n files p = Some r ->
  resolve n (<[r := File c]> files) p = Some r.
Proof.
  revert p. induction n as [|n IH]; intros p H; simpl in *.
  - destruct (decide (r = p)) as [->|Hne].
    + by rewrite lookup_insert_eq.
    + rewrite lookup_insert_ne by done.
      destruct (files !! p) as [[?|?]|]; congruence.
  - destruct (decide (r = p)) as [->|Hne].
    + by rewrite lookup_insert_eq.
    + rewrite lookup_insert_ne by done.
      destruct (files !! p) as [[?|?]|]; try congruence. by apply IH.
Qed.

Lemma open_w_open_r (p c : string) (w w' : world) :
  open_w p c w = (Ok tt, w') -> open_r p w' = (Ok c, w').
Proof.
  unfold open_w, open_r.
  destruct (resolve MAXSYMLINKS (fs w) p) as [r|] eqn:E; [|done].
  intros [= <-]. unfold set_fs. cbn [fs].
  rewrite (resolve_insert_file _ _ _ _ c E). by rewrite lookup_insert_eq.
Qed.

Lemma open_r_world (p : string) (w : world) : (open_r p w).2 = w.
Proof.
  unfold open_r. destruct (resolve _ _ _); [|done].
  by destruct (fs w !! s) as [[?|?]|].
Qed.

Lemma open_r_eq (p : string) (w : world) : open_r p w = ((open_r p w).1, w).
Proof.
  pose proof (open_r_world p w). destruct (open_r p w); simpl in *; by subst.
Qed.

(** A file is read from [fs] alone. *)
Lemma open_r_fs (p : string) (w w' : world) :
  fs w = fs w' -> (open_r p w).1 = (open_r p w').1.
Proof.
  intros H. unfold open_r. rewrite H.
  destruct (resolve MAXSYMLINKS (fs w') p) as [q|]; [|done].
  by destruct (fs w' !! q) as [[?|?]|].
Qed.

(** [read_ctdb_nodes] in terms of what opening the file does. *)
Lemma read_ctdb_nodes_cases (path : string) (w : world) :
  read_ctdb_nodes path w =
    match open_r path w with
    | (Ok fh, _) => (Ok (read_nodes_file fh), w)
    | (Raise FileNotFoundError, _) => (Ok [], w)
    | (Raise e, _) => (Raise e, w)
    end.
Proof.
  unfold read_ctdb_nodes. unfold_st.
  pose proof (open_r_world path w) as Hw.
  destruct (open_r path w) as [[fh|e] w']; simpl in Hw; subst w'; [done |].
  by destruct e.
Qed.

Lemma read_ctdb_nodes_world (path : string) (w : world) :
  (read_ctdb_nodes path w).2 = w.
Proof.
  rewrite read_ctdb_nodes_cases.
  destruct (open_r path w) as [[fh|e] w']; [done | by destruct e].
Qed.

(** Reading the nodes file right after writing it. *)
Lemma read_after_open_w (p c : string) (w w' : world) :
  open_w p c w = (Ok tt, w') ->
  read_ctdb_nodes p w' = (Ok (read_nodes_file c), w').
Proof.
  intros H. rewrite read_ctdb_nodes_cases. by rewrite (open_w_open_r _ _ _ _ H).
Qed.

(** A nodes file that can be read can be written. *)
Lemma read_ok_resolves (p : string) (w : world) (l : list string) :
  (read_ctdb_nodes p w).1 = Ok l ->
  exists r, resolve MAXSYMLINKS (fs w) p = Some r.
Proof.
  rewrite read_ctdb_nodes_cases. unfold open_r.
  destruct (resolve MAXSYMLINKS (fs w) p) as [r|]; [eauto | done].
Qed.

(** ** The nodes file accessors *)

(** C7: reading the nodes list when the file is not found (absent name or
    dangling link) returns the empty list, not an error; when the file
    exists, the result is the list of its lines, stripped, in order: the
    addresses, when the file holds one address per line. *)
Theorem C7_read_ctdb_nodes (path : string) (w : world) :
  ((open_r path w).1 = Raise FileNotFoundError ->
     read_ctdb_nodes path w = (Ok [], w))
  /\ (fs w !! path = None -> read_ctdb_nodes path w = (Ok [], w))
  /\ (forall content, fs w !! path = Some (File content) ->
        read_ctdb_nodes path w
        = (Ok (map Text.strip (Text.lines (Text.universal_newlines content))), w))
  /\ (forall addresses, Forall Text.clean addresses ->
        fs w !! path = Some (File (Text.join_lines addresses)) ->
        read_ctdb_nodes path w = (Ok addresses, w)).
Proof.
  assert (Hfile : forall content, fs w !! path = Some (File content) ->
             open_r path w = (Ok content, w)).
  { intros content H. unfold open_r.
    assert (resolve MAXSYMLINKS (fs w) path = Some path) as ->
      by (simpl; by rewrite H).
    by rewrite H. }
  repeat split.
  - intros H. rewrite read_ctdb_nodes_cases.
    destruct (open_r path w) as [[fh|e] w']; simpl in H; [done |].
    by injection H as ->.
  - intros H. rewrite read_ctdb_nodes_cases. unfold open_r.
    assert (resolve MAXSYMLINKS (fs w) path = Some path) as ->
      by (simpl; by rewrite H).
    by rewrite H.
  - intros content H. rewrite read_ctdb_nodes_cases, (Hfile _ H).
    by rewrite read_nodes_file_map.
  - intros addresses Hc H. rewrite read_ctdb_nodes_cases, (Hfile _ H).
    rewrite <- write_nodes_file_join. by rewrite read_write_clean.
Qed.

Lemma C7_read_ctdb_nodes_witness :
  let w := World {["/nodes" := File (Text.join_lines ["10.0.0.10"; "10.0.0.11"])]}
                 ∅ 0 0 in
  read_ctdb_nodes "/missing" w = (Ok [], w)
  /\ read_ctdb_nodes "/nodes" w = (Ok ["10.0.0.10"; "10.0.0.11"], w).
Proof.
  intros w. split.
  - apply (proj1 (proj2 (C7_read_ctdb_nodes "/missing" w))). reflexivity.
  - apply (proj2 (proj2 (proj2 (C7_read_ctdb_nodes "/nodes" w)))).
    + repeat (constructor; [split; reflexivity |]). constructor.
    + reflexivity.
Defined.

(** C9: writing a nodes list and reading it back is the identity, for
    every list of addresses that hold no whitespace or newline character. *)
Theorem C9_read_write_nodes_file (ctdb_nodes : list string) :
  Forall (fun n => Text.no_whitespace n = true) ctdb_nodes ->
  read_nodes_file (write_nodes_file ctdb_nodes) = ctdb_nodes.
Proof.
  intros H. apply read_write_clean.
  eapply Forall_impl; [exact H |]. apply no_whitespace_clean.
Qed.

Lemma C9_read_write_nodes_file_witness :
  read_nodes_file (write_nodes_file ["10.0.0.10"; "10.0.0.11"; ""])
  = ["10.0.0.10"; "10.0.0.11"; ""].
Proof.
  apply (C9_read_write_nodes_file ["10.0.0.10"; "10.0.0.11"; ""]).
  repeat constructor.
Defined.

Lemma ensure_ctdb_nodes_written (l : list string) (real_path canon_path : string)
    (w w' : world) :
  ensure_ctdb_nodes l real_path canon_path w = (Ok tt, w') ->
  open_r real_path w' = (Ok (write_nodes_file l), w').
Proof.
  unfold ensure_ctdb_nodes. unfold_st.
  destruct (os_unlink canon_path w) as [[[]|e] w1].
  - destruct (os_symlink real_path canon_path w1) as [[[]|e] w2]; [|done].
    apply open_w_open_r.
  - destruct e; try done.
    destruct (os_symlink real_path canon_path w1) as [[[]|e] w2]; [|done].
    apply open_w_open_r.
Qed.

(** [ensure_ctdb_node_present] once the nodes file has been read. *)
Lemma ensure_ctdb_node_present_read (node' real_path canon_path : string)
    (expected_pnn : option Z) (w : world) (nodes : list string) :
  read_ctdb_nodes real_path w = (Ok nodes, w) ->
  ensure_ctdb_node_present node' real_path canon_path expected_pnn w =
    let nodes' := if bool_decide (node' ∈ nodes) then nodes else nodes ++ [node'] in
    match expected_pnn with
    | Some expected =>
        let found_pnn := match py_index node' nodes' with
                         | Some i => Z.of_nat i
                         | None => (-1)%Z
                         end in
        if bool_decide (expected ≠ found_pnn)
        then (Raise (ValueError (ExpectedPnn expected found_pnn)), w)
        else ensure_ctdb_nodes nodes' real_path canon_path w
    | None => ensure_ctdb_nodes nodes' real_path canon_path w
    end.
Proof.
  intros Hread. unfold ensure_ctdb_node_present.
  unfold mbind at 1. unfold ST_bind at 1. rewrite Hread.
  destruct expected_pnn as [expected|]; [|done].
  unfold_st. cbv zeta. by case_bool_decide.
Qed.

(** C10: [ensure_ctdb_node_present] never appends an address that the
    nodes file already holds (after a successful call the file holds
    exactly the list that was read), and when [expected_pnn] is given and
    differs from the index of the address in the list (the list read, or
    the list with the address just appended) it raises ValueError with
    nothing written: the nodes file and the link are as they were. *)
Theorem C10_ensure_ctdb_node_present (node' real_path canon_path : string)
    (expected_pnn : option Z) (w : world) (nodes : list string) :
  read_ctdb_nodes real_path w = (Ok nodes, w) ->
  let nodes' := if bool_decide (node' ∈ nodes) then nodes else nodes ++ [node'] in
  let found_pnn := match py_index node' nodes' with
                   | Some i => Z.of_nat i
                   | None => (-1)%Z
                   end in
  (node' ∈ nodes ->
     forall w', ensure_ctdb_node_present node' real_path canon_path expected_pnn w
                = (Ok tt, w') ->
     open_r real_path w' = (Ok (write_nodes_file nodes), w'))
  /\ (forall expected, expected_pnn = Some expected -> expected ≠ found_pnn ->
        ensure_ctdb_node_present node' real_path canon_path expected_pnn w
        = (Raise (ValueError (ExpectedPnn expected found_pnn)), w)).
Proof.
  intros Hread nodes' found_pnn. split.
  - intros Hin w'. rewrite (ensure_ctdb_node_present_read _ _ _ _ _ _ Hread).
    cbv zeta. rewrite (bool_decide_eq_true_2 _ Hin).
    destruct expected_pnn as [expected|].
    + case_bool_decide; [done |]. apply ensure_ctdb_nodes_written.
    + apply ensure_ctdb_nodes_written.
  - intros expected -> Hne.
    rewrite (ensure_ctdb_node_present_read _ _ _ _ _ _ Hread). cbv zeta.
    fold nodes'. fold found_pnn. by rewrite (bool_decide_eq_true_2 _ Hne).
Qed.

Lemma C10_ensure_ctdb_node_present_witness :
  let w := world_nodes ["10.0.0.10"; "10.0.0.11"] in
  let w' := (ensure_ctdb_node_present "10.0.0.11" "/nodes" "/nodes.lnk"
               (Some 1%Z) w).2 in
  open_r "/nodes" w' = (Ok (write_nodes_file ["10.0.0.10"; "10.0.0.11"]), w')
  /\ ensure_ctdb_node_present "10.0.0.11" "/nodes" "/nodes.lnk" (Some 0%Z) w
     = (Raise (ValueError (ExpectedPnn 0 1)), w)
  /\ ensure_ctdb_node_present "10.0.0.12" "/nodes" "/nodes.lnk" (Some 1%Z) w
     = (Raise (ValueError (ExpectedPnn 1 2)), w).
Proof.
  intros w w'.
  assert (Hread : read_ctdb_nodes "/nodes" w = (Ok ["10.0.0.10"; "10.0.0.11"], w))
    by reflexivity.
  split; [| split].
  - apply (proj1 (C10_ensure_ctdb_node_present "10.0.0.11" "/nodes" "/nodes.lnk"
                    (Some 1%Z) w _ Hread)).
    + repeat constructor.
    + reflexivity.
  - apply (proj2 (C10_ensure_ctdb_node_present "10.0.0.11" "/nodes" "/nodes.lnk"
                    (Some 0%Z) w _ Hread) 0%Z); [reflexivity | by vm_compute].
  - apply (proj2 (C10_ensure_ctdb_node_present "10.0.0.12" "/nodes" "/nodes.lnk"
                    (Some 1%Z) w _ Hread) 1%Z); [reflexivity | by vm_compute].
Defined.

(** ** Registration in the state file *)

Lemma duplicate_loop (p : Z) (entries : list entry) (data : json_data) :
  for_ entries (fun entry =>
    if bool_decide (p = pnn entry)
    then raise (ValueError DuplicatePnn)
    else mret tt) data
  = (if has_pnn p entries then Raise (ValueError DuplicatePnn) else Ok tt, data).
Proof.
  induction entries as [|e entries IH]; simpl; [done |].
  unfold_st. case_bool_decide; simpl; [done |]. exact IH.
Qed.

Lemma _update_statefile_spec (node' : string) (pnn' : Z) (in_nodes' : bool)
    (data : json_data) :
  let entries := default [] (json_nodes data) in
  _update_statefile node' pnn' in_nodes' data =
    if has_pnn pnn' entries
    then (Raise (ValueError DuplicatePnn), JsonData (Some entries))
    else (Ok tt, JsonData (Some (entries ++ [Entry node' pnn' in_nodes']))).
Proof.
  intros entries. unfold _update_statefile.
  unfold mbind at 1 2 3. unfold ST_bind at 1 2 3.
  unfold modify at 1, get. cbn [json_nodes default].
  rewrite duplicate_loop. fold entries. unfold id.
  by destruct (has_pnn pnn' entries).
Qed.


(** [add_node_to_statefile] as a function of the stored entries. *)
Lemma add_node_to_statefile_spec (node' : string) (pnn' : Z) (path : string)
    (in_nodes' : bool) (w : world) :
  add_node_to_statefile node' pnn' path in_nodes' w =
    if has_pnn pnn' (entries_at path w)
    then (Raise (ValueError DuplicatePnn), w)
    else (Ok tt,
          set_statefiles
            (insert path
               (Some (JsonData (Some (entries_at path w
                                      ++ [Entry node' pnn' in_nodes'])))))
            w).
Proof.
  unfold add_node_to_statefile, jfile_open, jfile_load, jfile_dump, entries_at.
  unfold_st.
  destruct (statefiles w !! path) as [[data|]|] eqn:E.
  - rewrite E. rewrite _update_statefile_spec. cbv zeta.
    by destruct (has_pnn pnn' (default [] (json_nodes data))).
  - rewrite E. rewrite _update_statefile_spec. simpl. done.
  - unfold set_statefiles at 1 2. cbn [statefiles].
    rewrite lookup_insert_eq. rewrite _update_statefile_spec. simpl.
    unfold set_statefiles. cbn [statefiles fs ctdb_exit reloads].
    by rewrite insert_insert_eq.
Qed.

Lemma entries_at_insert (path : string) (entries : list entry) (w : world) :
  entries_at path
    (set_statefiles (insert path (Some (JsonData (Some entries)))) w)
  = entries.
Proof.
  unfold entries_at, set_statefiles. cbn [statefiles].
  by rewrite lookup_insert_eq.
Qed.

Lemma has_pnn_app (p : Z) (l1 l2 : list entry) :
  has_pnn p (l1 ++ l2) = has_pnn p l1 || has_pnn p l2.
Proof. unfold has_pnn. apply existsb_app. Qed.

Lemma has_pnn_elem (p : Z) (entries : list entry) :
  has_pnn p entries = true <-> exists e, e ∈ entries /\ pnn e = p.
Proof.
  unfold has_pnn. rewrite existsb_exists. split.
  - intros (e & Hin & He). exists e. split; [by apply list_elem_of_In |].
    symmetry. by apply bool_decide_eq_true_1 in He.
  - intros (e & Hin & He). exists e. split; [by apply list_elem_of_In |].
    apply bool_decide_eq_true_2. done.
Qed.

(** Once a pnn is in the document no registration for it succeeds. *)
Lemma successes_bound (p : Z) (path : string) (regs : list entry) (w : world) :
  (successes p path regs w
   <= if has_pnn p (entries_at path w) then 0 else 1)%nat.
Proof.
  revert w. induction regs as [|r regs IH]; intros w; simpl.
  - destruct (has_pnn _ _); lia.
  - rewrite add_node_to_statefile_spec.
    destruct (has_pnn (pnn r) (entries_at path w)) eqn:Hr.
    + specialize (IH w). lia.
    + match goal with
      | |- (_ + successes p path regs ?w1 <= _)%nat => specialize (IH w1)
      end.
      rewrite entries_at_insert, has_pnn_app in IH.
      case_bool_decide as Hp.
      * subst p. rewrite Hr. rewrite Hr in IH. simpl in IH.
        rewrite bool_decide_eq_true_2 in IH by done. simpl in IH. lia.
      * destruct (has_pnn p (entries_at path w)); simpl in IH; [lia |].
        destruct (bool_decide (p = pnn r)); simpl in IH; lia.
Qed.

(** C5: registering an entry with a pnn that an entry of the document
    already carries fails with the duplicate pnn error and leaves the
    document (the whole state) as it was; whatever registrations are run
    one after the other, at most one for a given pnn succeeds; and of two
    registrations for a pnn that no entry carries yet, the first succeeds
    and the second fails with the duplicate pnn error. *)
Theorem C5_duplicate_pnn (path : string) (w : world) (p : Z) :
  (forall node' in_nodes',
     (exists e, e ∈ entries_at path w /\ pnn e = p) ->
     add_node_to_statefile node' p path in_nodes' w
     = (Raise (ValueError DuplicatePnn), w))
  /\ (forall regs, (successes p path regs w <= 1)%nat)
  /\ (forall node1 in_nodes1 node2 in_nodes2,
        has_pnn p (entries_at path w) = false ->
        exists w1,
          add_node_to_statefile node1 p path in_nodes1 w = (Ok tt, w1)
          /\ entries_at path w1 = entries_at path w ++ [Entry node1 p in_nodes1]
          /\ add_node_to_statefile node2 p path in_nodes2 w1
             = (Raise (ValueError DuplicatePnn), w1)).
Proof.
  split; [| split].
  - intros node' in_nodes' He. rewrite add_node_to_statefile_spec.
    by rewrite (proj2 (has_pnn_elem _ _) He).
  - intros regs. pose proof (successes_bound p path regs w) as H.
    destruct (has_pnn _ _); lia.
  - intros node1 in_nodes1 node2 in_nodes2 Hfresh.
    eexists. split; [| split].
    + rewrite add_node_to_statefile_spec. by rewrite Hfresh.
    + apply entries_at_insert.
    + rewrite add_node_to_statefile_spec, entries_at_insert, has_pnn_app.
      simpl. rewrite bool_decide_eq_true_2 by done. by rewrite orb_true_r.
Qed.

Lemma C5_duplicate_pnn_witness :
  let w := World ∅ {["/nodes.json" := Some (JsonData (Some [Entry "10.0.0.10" 0 true]))]} 0 0 in
  add_node_to_statefile "10.0.0.11" 0 "/nodes.json" false w
  = (Raise (ValueError DuplicatePnn), w)
  /\ exists w1,
       add_node_to_statefile "10.0.0.11" 1 "/nodes.json" false w = (Ok tt, w1)
       /\ entries_at "/nodes.json" w1
          = [Entry "10.0.0.10" 0 true; Entry "10.0.0.11" 1 false]
       /\ add_node_to_statefile "10.0.0.12" 1 "/nodes.json" false w1
          = (Raise (ValueError DuplicatePnn), w1).
Proof.
  intros w. split.
  - apply (proj1 (C5_duplicate_pnn "/nodes.json" w 0%Z)).
    exists (Entry "10.0.0.10" 0 true). split; [repeat constructor | reflexivity].
  - apply (proj2 (proj2 (C5_duplicate_pnn "/nodes.json" w 1%Z))). reflexivity.
Defined.

Lemma gate_open :
  bool_decide (Some "ctdb-is-experimental"%string
               = Some "ctdb-is-experimental"%string) = true.
Proof. by apply bool_decide_eq_true_2. Qed.

(** C6: registering (with [ctdb_set_node]) an address and pnn for which
    the document already holds a matching entry succeeds and changes
    nothing: not the document, nor anything else. *)
Theorem C6_refresh_is_noop (cmeta identity node_ip_addr persistent_path : string)
    (node_number : option Z) (w : world) (e : entry) :
  e ∈ entries_at cmeta w ->
  pnn e = default 0%Z node_number ->
  node e = node_ip_addr ->
  ctdb_set_node (Some "ctdb-is-experimental"%string) cmeta identity
    node_ip_addr node_number persistent_path w
  = (Ok tt, w).
Proof.
  intros Hin Hpnn Hnode.
  unfold ctdb_set_node, _ctdb_ok, refresh_node_in_cluster_meta, jfile_load.
  cbv zeta. rewrite gate_open. unfold_st.
  assert (Hex : existsb
            (fun e0 => bool_decide (pnn e0 = default 0%Z node_number)
                       && bool_decide (node e0 = node_ip_addr))
            (entries_at cmeta w) = true).
  { apply existsb_exists. exists e. split; [by apply list_elem_of_In |].
    by rewrite !bool_decide_eq_true_2. }
  unfold entries_at in Hex.
  destruct (statefiles w !! cmeta) as [[data|]|]; simpl in Hex; try done.
  by rewrite Hex.
Qed.

Lemma C6_refresh_is_noop_witness :
  let w := World ∅ {["/nodes.json" := Some doc_B]} 0 0 in
  ctdb_set_node (Some "ctdb-is-experimental"%string) "/nodes.json" "node-1"
    "10.0.0.11" (Some 1%Z) "/nodes" w
  = (Ok tt, w).
Proof.
  intros w.
  apply (C6_refresh_is_noop "/nodes.json" "node-1" "10.0.0.11" "/nodes"
           (Some 1%Z) w (Entry "10.0.0.11" 1 false)).
  - repeat constructor.
  - reflexivity.
  - reflexivity.
Defined.

(** Without the refresh, a registration that matches an existing entry is
    a duplicate like any other: [add_node_to_statefile] raises. *)
Lemma add_node_to_statefile_matching (path : string) (w : world) (e : entry) :
  e ∈ entries_at path w ->
  add_node_to_statefile (node e) (pnn e) path (in_nodes e) w
  = (Raise (ValueError DuplicatePnn), w).
Proof.
  intros Hin. rewrite add_node_to_statefile_spec.
  assert (has_pnn (pnn e) (entries_at path w) = true) as ->; [|done].
  apply has_pnn_elem. eauto.
Qed.

(** ** The retry loop *)

Lemma loop_counter_bound (calls : list outcome) (n waits m waits' : nat) :
  (n <= 10)%nat ->
  manage_nodes_loop calls n waits = Looping m waits' -> (m <= 10)%nat.
Proof.
  revert n waits. induction calls as [|o calls IH]; intros n waits Hn; simpl.
  - intros [= <- _]. done.
  - destruct o as [|err|]; simpl.
    + apply IH. lia.
    + destruct (Nat.ltb_spec 10 (S n)); [done |]. apply IH. lia.
    + done.
Qed.

(** What came before a propagated error: ten failures in a row and the
    failure that is propagated, the row starting with the loop or after
    some earlier calls. *)
Lemma loop_propagated (calls : list outcome) (n waits : nat) (err : exn) :
  (n <= 10)%nat ->
  manage_nodes_loop calls n waits = Propagated err ->
  exists pre fails rest,
    calls = pre ++ fails ++ RaisesException err :: rest
    /\ forallb is_exception fails = true
    /\ ((pre = [] /\ n + length fails = 10)%nat \/ length fails = 10%nat).
Proof.
  revert n waits. induction calls as [|o calls IH]; intros n waits Hn; simpl.
  - done.
  - destruct o as [|e|]; simpl.
    + intros H. destruct (IH 0%nat waits ltac:(lia) H)
        as (pre & fails & rest & -> & Hf & Hlen).
      exists (Returns :: pre), fails, rest. split; [done |]. split; [done |].
      right. destruct Hlen as [[_ ?]|?]; lia.
    + destruct (Nat.ltb_spec 10 (S n)) as [Hgt|Hle].
      * intros [= ->]. exists [], [], calls. split; [done |]. split; [done |].
        left. simpl. split; [done | lia].
      * intros H. destruct (IH (S n) (S waits) ltac:(lia) H)
          as (pre & fails & rest & -> & Hf & Hlen).
        destruct Hlen as [[-> Hlen]|Hlen].
        -- exists [], (RaisesException e :: fails), rest.
           split; [done |]. split; [by simpl |]. left. simpl. split; [done | lia].
        -- exists (RaisesException e :: pre), fails, rest.
           split; [done |]. split; [done |]. by right.
    + done.
Qed.

Lemma loop_app (calls1 calls2 : list outcome) (n waits : nat) :
  manage_nodes_loop (calls1 ++ calls2) n waits =
    match manage_nodes_loop calls1 n waits with
    | Looping m waits' => manage_nodes_loop calls2 m waits'
    | st => st
    end.
Proof.
  revert n waits. induction calls1 as [|o calls1 IH]; intros n waits; simpl.
  - done.
  - destruct (loop_turn o n waits); [apply IH | done | done].
Qed.

Lemma loop_failures (fails : list outcome) (n waits : nat) :
  forallb is_exception fails = true ->
  (n + length fails <= 10)%nat ->
  manage_nodes_loop fails n waits
  = Looping (n + length fails) (waits + length fails).
Proof.
  revert n waits. induction fails as [|o fails IH]; intros n waits; simpl.
  - intros _ _. f_equal; lia.
  - intros [Ho Hf]%andb_true_iff Hlen. destruct o as [|e|]; try done. simpl.
    destruct (Nat.ltb_spec 10 (S n)); [lia |].
    rewrite IH by (done || lia). f_equal; lia.
Qed.

(** C8: in the loop of [ctdb_manage_nodes], a call that returns resets
    the failure counter to zero; a call that raises an error increments
    the counter and, while the counter does not exceed 10, the loop waits
    and goes on; the error is propagated once the counter exceeds 10, and
    only then: a propagated error is the eleventh failure in a row, and
    the eleventh failure in a row is propagated. *)
Theorem C8_retry_loop :
  (forall errors waits, loop_turn Returns errors waits = Looping 0 waits)
  /\ (forall err errors waits, (S errors <= 10)%nat ->
        loop_turn (RaisesException err) errors waits
        = Looping (S errors) (S waits))
  /\ (forall err errors waits, (10 < S errors)%nat ->
        loop_turn (RaisesException err) errors waits = Propagated err)
  /\ (forall calls err,
        ctdb_manage_nodes (Some "ctdb-is-experimental"%string) calls
        = Propagated err ->
        exists pre fails rest,
          calls = pre ++ fails ++ RaisesException err :: rest
          /\ forallb is_exception fails = true
          /\ length fails = 10%nat)
  /\ (forall pre fails err rest errors waits,
        manage_nodes_loop pre 0 0 = Looping errors waits ->
        forallb is_exception fails = true ->
        (errors + length fails = 10)%nat ->
        ctdb_manage_nodes (Some "ctdb-is-experimental"%string)
          (pre ++ fails ++ RaisesException err :: rest)
        = Propagated err).
Proof.
  repeat split.
  - intros err errors waits H. simpl.
    by destruct (Nat.ltb_spec 10 (S errors)); [lia |].
  - intros err errors waits H. simpl.
    by destruct (Nat.ltb_spec 10 (S errors)); [| lia].
  - intros calls err. unfold ctdb_manage_nodes.
    cbv zeta. rewrite gate_open. intros H.
    destruct (loop_propagated calls 0 0 err ltac:(lia) H)
      as (pre & fails & rest & -> & Hf & Hlen).
    exists pre, fails, rest. split; [done |]. split; [done |].
    destruct Hlen as [[_ ?]|?]; lia.
  - intros pre fails err rest errors waits Hpre Hf Hlen.
    unfold ctdb_manage_nodes. cbv zeta. rewrite gate_open.
    rewrite loop_app, Hpre, loop_app, loop_failures by (done || lia).
    simpl. rewrite Hlen. done.
Qed.

Lemma C8_retry_loop_witness :
  loop_turn (RaisesException (ValueError DuplicatePnn)) 9 0 = Looping 10 1
  /\ loop_turn (RaisesException (ValueError DuplicatePnn)) 10 0
     = Propagated (ValueError DuplicatePnn)
  /\ (exists pre fails rest,
        ten_failures ++ [RaisesException FileNotFoundError]
        = pre ++ fails ++ RaisesException FileNotFoundError :: rest
        /\ forallb is_exception fails = true /\ length fails = 10%nat)
  /\ ctdb_manage_nodes (Some "ctdb-is-experimental"%string)
       ([RaisesException FileNotFoundError; Returns] ++ ten_failures
        ++ RaisesException TooManyLinks :: [Returns])
     = Propagated TooManyLinks.
Proof.
  destruct C8_retry_loop as (_ & Hinc & Hfatal & Honly & Heleventh).
  split; [| split; [| split]].
  - apply Hinc. lia.
  - apply Hfatal. lia.
  - apply Honly. reflexivity.
  - apply (Heleventh _ _ _ _ 0%nat 1%nat); [reflexivity | reflexivity | reflexivity].
Defined.

(** ** The node update check *)

Lemma check_loop_spec (cn : list string) (desired : list entry) (k : nat)
    (v : check_vars) (w : world) :
  on_object (for_ (enumerate_from k desired) (check_entry cn)) v w =
    (match List.find (out_of_order cn) desired with
     | Some e => Raise (ValueError (UnexpectedPnn (pnn e) cn))
     | None => Ok (CheckVars (new_nodes v ++ appended cn desired)
                             (need_reload v ++ reload_refs cn k desired))
     end, w).
Proof.
  revert k v. induction desired as [|e desired IH]; intros k v.
  - simpl. unfold_st. rewrite !app_nil_r. by destruct v.
  - specialize (IH (S k)). unfold on_object in *. simpl.
    unfold out_of_order, check_entry. unfold_st.
    destruct (matched cn e) eqn:Hm, (in_nodes e) eqn:Hi; simpl.
    + specialize (IH v). destruct (for_ _ _ v) as [[[]|?] ?]; exact IH.
    + specialize (IH (CheckVars (new_nodes v) (need_reload v ++ [k]))).
      destruct (for_ _ _ _) as [[[]|?] ?];
        simpl in IH; rewrite <- ?app_assoc in IH; exact IH.
    + case_bool_decide; [done |].
      specialize (IH (CheckVars (new_nodes v ++ [node e]) (need_reload v ++ [k]))).
      destruct (for_ _ _ _) as [[[]|?] ?];
        simpl in IH; rewrite <- ?app_assoc in IH; exact IH.
    + specialize (IH (CheckVars (new_nodes v) (need_reload v ++ [k]))).
      destruct (for_ _ _ _) as [[[]|?] ?];
        simpl in IH; rewrite <- ?app_assoc in IH; exact IH.
Qed.

(** [_node_update_check] once the nodes file has been read. *)
Lemma _node_update_check_spec (data : json_data) (nodes_json real_path : string)
    (w : world) (cn : list string) :
  read_ctdb_nodes real_path w = (Ok cn, w) ->
  let desired := default [] (json_nodes data) in
  _node_update_check data nodes_json real_path w =
    (match List.find (out_of_order cn) desired with
     | Some e => Raise (ValueError (UnexpectedPnn (pnn e) cn))
     | None => Ok (cn, appended cn desired, reload_refs cn 0 desired)
     end, w).
Proof.
  intros Hread desired. unfold _node_update_check.
  unfold mbind at 1. unfold ST_bind at 1. rewrite Hread.
  unfold mbind at 1. unfold ST_bind at 1. rewrite check_loop_spec.
  fold desired. by destruct (List.find _ _).
Qed.

Lemma appended_elem (cn : list string) (desired : list entry) (a : string) :
  a ∈ appended cn desired <->
  exists e, e ∈ desired /\ in_nodes e = true /\ matched cn e = false /\ node e = a.
Proof.
  induction desired as [|e desired IH]; simpl.
  - split; [by intros ?%elem_of_nil | by intros (? & ?%elem_of_nil & _)].
  - destruct (in_nodes e) eqn:Hi, (matched cn e) eqn:Hm; simpl;
      rewrite ?elem_of_cons, IH; split.
    all: try (intros (e' & [->|Hin]%elem_of_cons & Hi' & Hm' & <-);
              [congruence | by eauto 6]).
    all: try (intros (e' & Hin & ?); exists e'; rewrite elem_of_cons; by eauto).
    + intros [->|(e' & Hin & ?)].
      * exists e. rewrite elem_of_cons. by eauto.
      * exists e'. rewrite elem_of_cons. by eauto.
    + intros (e' & [->|Hin]%elem_of_cons & Hi' & Hm' & <-); [by left |].
      right. by eauto.
Qed.



Lemma reload_refs_nil (cn : list string) (k : nat) (desired : list entry) :
  reload_refs cn k desired = [] <->
  forall e, e ∈ desired -> matched cn e = true /\ in_nodes e = true.
Proof.
  revert k. induction desired as [|e desired IH]; intros k; simpl.
  - split; [by intros _ ? ?%elem_of_nil | done].
  - destruct (matched cn e) eqn:Hm, (in_nodes e) eqn:Hi; simpl.
    + rewrite IH. split.
      * intros H e' [->|Hin]%elem_of_cons; eauto.
      * intros H e' Hin. apply H. rewrite elem_of_cons. eauto.
    + split; [done |]. intros H.
      destruct (H e ltac:(rewrite elem_of_cons; eauto)). congruence.
    + split; [done |]. intros H.
      destruct (H e ltac:(rewrite elem_of_cons; eauto)). congruence.
    + split; [done |]. intros H.
      destruct (H e ltac:(rewrite elem_of_cons; eauto)). congruence.
Qed.

Lemma appended_nil_of_refs (cn : list string) (k : nat) (desired : list entry) :
  reload_refs cn k desired = [] -> appended cn desired = [].
Proof.
  intros H. pose proof (proj1 (reload_refs_nil _ _ _) H) as Hall.
  destruct (appended cn desired) as [|a l] eqn:E; [done |].
  assert (Ha : a ∈ appended cn desired) by (rewrite E; left).
  apply appended_elem in Ha as (e & Hin & _ & Hm & _).
  destruct (Hall e Hin). congruence.
Qed.

(** Marking the collected entries confirms every entry: those left out
    were confirmed already. *)
Lemma mark_refs (cn : list string) (prefix suffix : list entry) :
  foldl (fun d i => mark_in_nodes i d) (JsonData (Some (prefix ++ suffix)))
        (reload_refs cn (length prefix) suffix)
  = JsonData (Some (prefix ++ map confirmed suffix)).
Proof.
  revert prefix. induction suffix as [|e suffix IH]; intros prefix; simpl.
  - done.
  - destruct (matched cn e && in_nodes e) eqn:Hskip.
    + apply andb_true_iff in Hskip as [_ Hi].
      assert (confirmed e = e) as -> by (destruct e; simpl in *; by subst).
      specialize (IH (prefix ++ [e])).
      rewrite length_app, Nat.add_1_r, <- !app_assoc in IH. exact IH.
    + simpl. unfold mark_in_nodes at 2. simpl.
      rewrite alter_app_r_alt by lia. rewrite Nat.sub_diag. simpl.
      specialize (IH (prefix ++ [confirmed e])).
      rewrite length_app, Nat.add_1_r, <- !app_assoc in IH. exact IH.
Qed.

(** ** The commit *)

Lemma jfile_open_existing (path : string) (mode : open_mode) (w : world)
    (od : option json_data) :
  statefiles w !! path = Some od -> jfile_open path mode w = (Ok tt, w).
Proof. intros H. unfold jfile_open. by rewrite H. Qed.

Lemma jfile_load_document (path : string) (w : world) :
  jfile_load path empty_dict w = (Ok (document_at path w), w).
Proof.
  unfold jfile_load, document_at.
  by destruct (statefiles w !! path) as [[?|]|].
Qed.

(** [_node_update] on a world where the state file exists and the nodes
    file can be read: the four ways a pass can go. *)
Lemma _node_update_spec (nodes_json real_path : string) (w : world)
    (od : option json_data) (cn : list string) (r : string) :
  statefiles w !! nodes_json = Some od ->
  read_ctdb_nodes real_path w = (Ok cn, w) ->
  resolve MAXSYMLINKS (fs w) real_path = Some r ->
  let desired := default [] (json_nodes (document_at nodes_json w)) in
  _node_update nodes_json real_path w =
    match List.find (out_of_order cn) desired with
    | Some e => (Raise (ValueError (UnexpectedPnn (pnn e) cn)), w)
    | None =>
        if is_empty (appended cn desired) && is_empty (reload_refs cn 0 desired)
        then (Ok false, w)
        else
          let w1 := count_reload
                      (set_fs (insert r (File (write_nodes_file
                                                 (cn ++ appended cn desired)))) w) in
          if bool_decide (ctdb_exit w = 0%Z)
          then (Ok true,
                set_statefiles
                  (insert nodes_json
                     (Some (JsonData (Some (map confirmed desired))))) w1)
          else (Raise (CalledProcessError (ctdb_exit w)), w1)
    end.
Proof.
  intros Hfile Hread Hres desired. unfold _node_update.
  unfold mbind at 1. unfold ST_bind at 1.
  rewrite (jfile_open_existing _ _ _ _ Hfile).
  unfold mbind at 1. unfold ST_bind at 1. rewrite jfile_load_document.
  unfold mbind at 1. unfold ST_bind at 1.
  rewrite (_node_update_check_spec _ _ _ _ _ Hread). cbv zeta. fold desired.
  destruct (List.find (out_of_order cn) desired) as [e|] eqn:Hfind; [done |].
  destruct (is_empty (appended cn desired) && is_empty (reload_refs cn 0 desired))
    eqn:Hnoop; [done |].
  unfold mbind at 1. unfold ST_bind at 1.
  rewrite (jfile_open_existing _ _ _ _ Hfile).
  unfold mbind at 1. unfold ST_bind at 1. rewrite jfile_load_document.
  unfold mbind at 1. unfold ST_bind at 1.
  rewrite (_node_update_check_spec _ _ _ _ _ Hread). cbv zeta. fold desired.
  rewrite Hfind, Hnoop.
  unfold mbind at 1. unfold ST_bind at 1. unfold open_w. rewrite Hres.
  unfold mbind at 1. unfold ST_bind at 1. unfold ctdb_reloadnodes.
  cbn [ctdb_exit set_fs].
  case_bool_decide; [|done].
  unfold mbind at 1. unfold ST_bind at 1. unfold jfile_dump, modify, mret, ST_ret.
  do 2 f_equal.
  assert (Hdoc : document_at nodes_json w = JsonData (Some desired)).
  { subst desired. destruct (document_at nodes_json w) as [[l|]]; [done |].
    simpl in Hnoop. done. }
  rewrite Hdoc. do 2 f_equal. exact (mark_refs cn [] desired).
Qed.

(** The nodes file is read from [fs] alone. *)
Lemma read_ctdb_nodes_fs (path : string) (w w' : world) :
  fs w = fs w' -> (read_ctdb_nodes path w).1 = (read_ctdb_nodes path w').1.
Proof.
  intros H. rewrite !read_ctdb_nodes_cases. unfold open_r. rewrite H.
  destruct (resolve MAXSYMLINKS (fs w') path) as [p|]; [|done].
  destruct (fs w' !! p) as [[?|?]|]; done.
Qed.

Lemma read_ctdb_nodes_eq (path : string) (w : world) :
  read_ctdb_nodes path w = ((read_ctdb_nodes path w).1, w).
Proof.
  pose proof (read_ctdb_nodes_world path w).
  destruct (read_ctdb_nodes path w); simpl in *; by subst.
Qed.

(** A pass raises what reading the nodes file raises. *)
Lemma _node_update_read_raises (nodes_json real_path : string) (w : world)
    (od : option json_data) (e : exn) :
  statefiles w !! nodes_json = Some od ->
  (read_ctdb_nodes real_path w).1 = Raise e ->
  _node_update nodes_json real_path w = (Raise e, w).
Proof.
  intros Hfile Hread. unfold _node_update.
  unfold mbind at 1. unfold ST_bind at 1.
  rewrite (jfile_open_existing _ _ _ _ Hfile).
  unfold mbind at 1. unfold ST_bind at 1. rewrite jfile_load_document.
  unfold mbind at 1. unfold ST_bind at 1. unfold _node_update_check.
  unfold mbind at 1. unfold ST_bind at 1.
  rewrite read_ctdb_nodes_eq, Hread. done.
Qed.

Lemma _node_update_no_statefile (nodes_json real_path : string) (w : world) :
  statefiles w !! nodes_json = None ->
  _node_update nodes_json real_path w = (Raise FileNotFoundError, w).
Proof.
  intros Hfile. unfold _node_update.
  unfold mbind at 1. unfold ST_bind at 1. unfold jfile_open. by rewrite Hfile.
Qed.

Lemma entries_at_document (path : string) (w : world) :
  entries_at path w = default [] (json_nodes (document_at path w)).
Proof.
  unfold entries_at, document_at.
  by destruct (statefiles w !! path) as [[?|]|].
Qed.

(** ** One pass on a pending entry *)

(** C1 (the code departs from it): on scenario B one pass confirms entry
    1 and runs the reload once, but the nodes file is rewritten without
    the address of the pending entry: it still lists 10.0.0.10 alone. *)
Theorem C1_scenario_B_pending_not_appended :
  let w := world_of doc_B ["10.0.0.10"] 0 in
  let w' := (_node_update "/nodes.json" "/nodes" w).2 in
  (_node_update "/nodes.json" "/nodes" w).1 = Ok true
  /\ nodes_file "/nodes" w = Ok ["10.0.0.10"]
  /\ nodes_file "/nodes" w' = Ok ["10.0.0.10"]
  /\ entries_at "/nodes.json" w'
     = [Entry "10.0.0.10" 0 true; Entry "10.0.0.11" 1 true]
  /\ reloads w' = 1%nat.
Proof. vm_compute. repeat split. Qed.

(** Scenario C of the specification (position 1 of the nodes file holds
    another address than the pending entry for pnn 1): the pass does not
    raise; it confirms the entry and leaves the nodes file as it is. *)
Lemma scenario_C_not_rejected :
  let w := world_of doc_B ["10.0.0.10"; "10.0.0.12"; "10.0.0.13"] 0 in
  let w' := (_node_update "/nodes.json" "/nodes" w).2 in
  (_node_update "/nodes.json" "/nodes" w).1 = Ok true
  /\ nodes_file "/nodes" w' = Ok ["10.0.0.10"; "10.0.0.12"; "10.0.0.13"]
  /\ entries_at "/nodes.json" w'
     = [Entry "10.0.0.10" 0 true; Entry "10.0.0.11" 1 true].
Proof. vm_compute. repeat split. Qed.

(** The addresses a pass appends are those of confirmed entries: a
    pending entry contributes none. *)
Lemma appended_confirmed_only (cn : list string) (desired : list entry) :
  Forall (fun e => in_nodes e = false) desired -> appended cn desired = [].
Proof.
  induction 1 as [|e desired He _ IH]; simpl; [done |]. by rewrite He.
Qed.

(** ** Order of the appended entries *)




Lemma read_ctdb_nodes_clean (path : string) (w : world) (cn : list string) :
  read_ctdb_nodes path w = (Ok cn, w) -> Forall Text.clean cn.
Proof.
  rewrite read_ctdb_nodes_cases.
  destruct (open_r path w) as [[fh|e] w'].
  - intros [= <-]. apply read_nodes_file_clean.
  - destruct e; try done. intros [= <-]. constructor.
Qed.

(** The list a commit writes reads back as it was written when the
    appended addresses are clean (the list read always is). *)
Lemma commit_reads_back (path : string) (w : world) (cn new : list string) :
  read_ctdb_nodes path w = (Ok cn, w) ->
  Forall Text.clean new ->
  read_nodes_file (write_nodes_file (cn ++ new)) = cn ++ new.
Proof.
  intros Hread H. apply read_write_clean.
  apply Forall_app. split; [by eapply read_ctdb_nodes_clean | done].
Qed.

(** ** A failing reload *)

Lemma read_ctdb_nodes_raises (path : string) (w : world) (e : exn) :
  (read_ctdb_nodes path w).1 = Raise e -> e = TooManyLinks.
Proof.
  rewrite read_ctdb_nodes_cases. unfold open_r.
  destruct (resolve MAXSYMLINKS (fs w) path) as [p|]; [| by intros [= <-]].
  destruct (fs w !! p) as [[?|?]|]; done.
Qed.

Lemma _node_update_pass_end (nodes_json real_path : string) (w : world) :
  pass_end nodes_json real_path w
    (_node_update nodes_json real_path w).1
    (_node_update nodes_json real_path w).2.
Proof.
  destruct (statefiles w !! nodes_json) as [od|] eqn:Hfile.
  2:{ rewrite (_node_update_no_statefile _ _ _ Hfile). by constructor. }
  destruct (read_ctdb_nodes real_path w).1 as [cn|e] eqn:Hr.
  2:{ rewrite (_node_update_read_raises _ _ _ _ _ Hfile Hr).
      pose proof (read_ctdb_nodes_raises _ _ _ Hr) as ->.
      by econstructor. }
  assert (Hread : read_ctdb_nodes real_path w = (Ok cn, w))
    by (by rewrite read_ctdb_nodes_eq, Hr).
  destruct (read_ok_resolves real_path w cn) as [r Hres]; [done |].
  rewrite (_node_update_spec _ _ _ _ _ _ Hfile Hread Hres). cbv zeta.
  rewrite <- entries_at_document.
  destruct (List.find _ _) as [e|] eqn:Hfind; [by econstructor |].
  destruct (reload_refs cn 0 (entries_at nodes_json w)) as [|i refs] eqn:Hrefs.
  - rewrite (appended_nil_of_refs _ _ _ Hrefs). simpl.
    econstructor; eauto using appended_nil_of_refs.
  - rewrite andb_false_r.
    pose proof (pass_commit nodes_json real_path w od cn r Hfile Hread Hres
                  Hfind) as H.
    rewrite Hrefs in H. specialize (H ltac:(done)).
    unfold nodes_committed in H.
    by destruct (bool_decide (ctdb_exit w = 0%Z)).
Qed.

(** Scenario A with a failing reload: the failed pass has written the
    address, and the next pass finds no changes and runs no reload. *)
Lemma C3_counterexample :
  let w := world_of doc_A [] 1 in
  let w1 := (_node_update "/nodes.json" "/nodes" w).2 in
  (_node_update "/nodes.json" "/nodes" w).1 = Raise (CalledProcessError 1)
  /\ nodes_file "/nodes" w = Ok []
  /\ nodes_file "/nodes" w1 = Ok ["10.0.0.10"]
  /\ entries_at "/nodes.json" w1 = entries_at "/nodes.json" w
  /\ reloads w1 = 1%nat
  /\ _node_update "/nodes.json" "/nodes" w1 = (Ok false, w1)
  /\ reloads (_node_update "/nodes.json" "/nodes" w1).2 = 1%nat.
Proof. vm_compute. repeat split. Qed.

(** C3, amended: when the reload command exits non-zero during a commit,
    the pass ends with that error after the nodes file has been rewritten
    (the list read plus the appended addresses) and the reload counted,
    and the state files are as they were, so pending entries keep
    [in_nodes] false. The next pass, whatever the command then returns,
    reads the rewritten list (the list written, when the appended
    addresses are clean); when the document holds a pending entry and the
    check does not raise, it runs the reload again, and the addresses it
    appends are those of entries that it does not find at their pnn: an
    address that sits at the pnn of its entry is not appended again. *)
Theorem C3_reload_failure_amended (nodes_json real_path : string) (w : world)
    (returncode : Z) :
  (_node_update nodes_json real_path w).1
  = Raise (CalledProcessError returncode) ->
  let w1 := (_node_update nodes_json real_path w).2 in
  let desired := entries_at nodes_json w in
  exists cn,
    read_ctdb_nodes real_path w = (Ok cn, w)
    /\ returncode = ctdb_exit w /\ returncode ≠ 0%Z
    /\ statefiles w1 = statefiles w
    /\ reloads w1 = S (reloads w)
    /\ open_r real_path w1
       = (Ok (write_nodes_file (cn ++ appended cn desired)), w1)
    /\ forall z,
         let w2 := set_ctdb_exit z w1 in
         let cn1 := read_nodes_file (write_nodes_file (cn ++ appended cn desired)) in
         read_ctdb_nodes real_path w2 = (Ok cn1, w2)
         /\ (Forall Text.clean (appended cn desired) ->
             cn1 = cn ++ appended cn desired)
         /\ ((exists e, e ∈ desired /\ in_nodes e = false) ->
             List.find (out_of_order cn1) desired = None ->
             reloads (_node_update nodes_json real_path w2).2 = S (S (reloads w))
             /\ nodes_file real_path (_node_update nodes_json real_path w2).2
                = Ok (read_nodes_file
                        (write_nodes_file (cn1 ++ appended cn1 desired)))
             /\ forall a, a ∈ appended cn1 desired ->
                  exists e, e ∈ desired /\ matched cn1 e = false /\ node e = a).
Proof.
  intros Hfail w1 desired. subst w1.
  pose proof (_node_update_pass_end nodes_json real_path w) as Hend.
  rewrite Hfail in Hend.
  inversion Hend as [| | | |od cn r Hfile Hread Hres Hfind Hrefs Hres' Hw1].
  fold desired in Hfind, Hrefs, Hw1.
  destruct (bool_decide (ctdb_exit w = 0%Z)) eqn:Hexit; [done |].
  apply bool_decide_eq_false_1 in Hexit.
  injection Hres' as <-. clear Hw1. fold desired. unfold nodes_committed.
  set (content := write_nodes_file (cn ++ appended cn desired)) in *.
  assert (Hw : open_w real_path content w
               = (Ok tt, set_fs (insert r (File content)) w)).
  { unfold open_w. by rewrite Hres. }
  exists cn. do 5 (split; [done |]).
  split.
  { rewrite open_r_eq. f_equal.
    rewrite (open_r_fs real_path _ (set_fs (insert r (File content)) w)) by done.
    by rewrite (open_w_open_r _ _ _ _ Hw). }
  intros z.
  set (w2 := set_ctdb_exit z (count_reload (set_fs (insert r (File content)) w))).
  set (cn1 := read_nodes_file (write_nodes_file (cn ++ appended cn desired))).
  assert (Hread2 : read_ctdb_nodes real_path w2 = (Ok cn1, w2)).
  { rewrite read_ctdb_nodes_eq. f_equal.
    rewrite (read_ctdb_nodes_fs real_path w2 (set_fs (insert r (File content)) w))
      by done.
    by rewrite (read_after_open_w _ _ _ _ Hw). }
  split; [done |].
  split; [intros Hclean; by eapply commit_reads_back |].
  intros (e & Hin & Hpending) Hfind1.
  assert (Hfile2 : statefiles w2 !! nodes_json = Some od) by done.
  assert (Hdes2 : entries_at nodes_json w2 = desired) by done.
  pose proof (_node_update_pass_end nodes_json real_path w2) as Hend2.
  assert (Hrefs2 : reload_refs cn1 0 desired ≠ []).
  { intros Hnil. destruct (proj1 (reload_refs_nil _ _ _) Hnil e Hin). congruence. }
  inversion Hend2
    as [Hf|od2 Hf Hr|od2 cn2 e2 Hf Hr Hfi|od2 cn2 Hf Hr Hfi Ha Hrf
        |od2 cn2 r2 Hf Hr Hrs Hfi Hrf Hres3 Hw3].
  - congruence.
  - unfold nodes_file in Hr. rewrite Hread2 in Hr. done.
  - rewrite Hread2 in Hr. injection Hr as <-. rewrite Hdes2 in Hfi. congruence.
  - rewrite Hread2 in Hr. injection Hr as <-. rewrite Hdes2 in Hrf. congruence.
  - rewrite Hread2 in Hr. injection Hr as <-. rewrite Hdes2.
    unfold nodes_committed.
    assert (Hw3' : open_w real_path
                     (write_nodes_file (cn1 ++ appended cn1 desired)) w2
                   = (Ok tt, set_fs (insert r2 (File (write_nodes_file
                                       (cn1 ++ appended cn1 desired)))) w2)).
    { unfold open_w. by rewrite Hrs. }
    split; [| split].
    + destruct (bool_decide (z = 0%Z)); done.
    + unfold nodes_file.
      rewrite (read_ctdb_nodes_fs real_path _
                 (set_fs (insert r2 (File (write_nodes_file
                                       (cn1 ++ appended cn1 desired)))) w2)).
      * by rewrite (read_after_open_w _ _ _ _ Hw3').
      * destruct (bool_decide (z = 0%Z)); done.
    + intros a Ha. apply appended_elem in Ha as (e' & ? & _ & ? & ?). eauto.
Qed.

Lemma C3_reload_failure_amended_witness :
  let w := world_of doc_B [] 1 in
  let w1 := (_node_update "/nodes.json" "/nodes" w).2 in
  statefiles w1 = statefiles w
  /\ reloads w1 = 1%nat
  /\ reloads (_node_update "/nodes.json" "/nodes" (set_ctdb_exit 0 w1)).2 = 2%nat.
Proof.
  intros w w1.
  destruct (C3_reload_failure_amended "/nodes.json" "/nodes" w 1 eq_refl)
    as (cn & Hread & _ & _ & Hdoc & Hreloads & _ & Hnext).
  injection Hread as <-.
  destruct (Hnext 0%Z) as (_ & _ & Hretry).
  destruct Hretry as (Hagain & _).
  - exists (Entry "10.0.0.11" 1 false). split; [repeat constructor | reflexivity].
  - reflexivity.
  - auto.
Defined.

(** ** Two passes in a row *)


Lemma in_nodes_confirmed (desired : list entry) (e : entry) :
  e ∈ map confirmed desired -> in_nodes e = true.
Proof.
  intros Hin. apply list_elem_of_In, in_map_iff in Hin as (e0 & <- & _). done.
Qed.




(** * More of [sambacc/ctdb.py] *)

(** ** The readiness query *)

Lemma pnn_in_nodes_spec (p : Z) (nodes_json real_path : string) (w : world) :
  pnn_in_nodes p nodes_json real_path w =
    match statefiles w !! nodes_json with
    | None => (Raise FileNotFoundError, w)
    | Some _ =>
        (Ok (existsb (fun e => bool_decide (p = pnn e) && in_nodes e)
                     (entries_at nodes_json w)), w)
    end.
Proof.
  unfold pnn_in_nodes, jfile_open, jfile_load, entries_at. unfold_st.
  destruct (statefiles w !! nodes_json) as [[data|]|] eqn:E; try rewrite E; done.
Qed.

Lemma existsb_pnn_fresh (p : Z) (entries : list entry) :
  has_pnn p entries = false ->
  existsb (fun e => bool_decide (p = pnn e) && in_nodes e) entries = false.
Proof.
  unfold has_pnn. induction entries as [|e entries IH]; simpl; [done |].
  intros [-> H]%orb_false_iff. simpl. auto.
Qed.

(** X1: a registration for a pnn that no entry carries succeeds, and the
    readiness query for that pnn then answers with the flag that was
    registered; the answers for the other pnns are what they were. *)
Theorem X1_register_then_query (node' : string) (p : Z)
    (path real_path : string) (flag : bool) (w : world) :
  has_pnn p (entries_at path w) = false ->
  exists w1,
    add_node_to_statefile node' p path flag w = (Ok tt, w1)
    /\ pnn_in_nodes p path real_path w1 = (Ok flag, w1)
    /\ forall q od, q ≠ p -> statefiles w !! path = Some od ->
         (pnn_in_nodes q path real_path w1).1 = (pnn_in_nodes q path real_path w).1.
Proof.
  intros Hfresh. eexists. split; [| split].
  - rewrite add_node_to_statefile_spec. by rewrite Hfresh.
  - rewrite pnn_in_nodes_spec. unfold set_statefiles at 1. cbn [statefiles].
    rewrite lookup_insert_eq, entries_at_insert, existsb_app.
    rewrite (existsb_pnn_fresh _ _ Hfresh). simpl.
    rewrite bool_decide_eq_true_2 by done. by destruct flag.
  - intros q od Hq Hfile. rewrite !pnn_in_nodes_spec.
    unfold set_statefiles at 1. cbn [statefiles].
    rewrite lookup_insert_eq, entries_at_insert, existsb_app, Hfile. simpl.
    rewrite bool_decide_eq_false_2 by done. simpl. by rewrite orb_false_r.
Qed.

Lemma X1_register_then_query_witness :
  exists w1,
    add_node_to_statefile "10.0.0.12" 2 "/nodes.json" false
      (world_of doc_B ["10.0.0.10"] 0) = (Ok tt, w1)
    /\ pnn_in_nodes 2 "/nodes.json" "/nodes" w1 = (Ok false, w1).
Proof.
  destruct (X1_register_then_query "10.0.0.12" 2 "/nodes.json" "/nodes" false
              (world_of doc_B ["10.0.0.10"] 0) eq_refl)
    as (w1 & Hadd & Hq & _).
  exists w1. split; assumption.
Defined.

(** After a pass that returns, every entry is confirmed. *)
Lemma pass_confirms_all (nodes_json real_path : string) (w w1 : world)
    (changed : bool) :
  _node_update nodes_json real_path w = (Ok changed, w1) ->
  (exists od, statefiles w1 !! nodes_json = Some od)
  /\ forall e, e ∈ entries_at nodes_json w1 -> in_nodes e = true.
Proof.
  intros Hpass.
  pose proof (_node_update_pass_end nodes_json real_path w) as Hend.
  rewrite Hpass in Hend. simpl in Hend.
  inversion Hend
    as [| | |od cn Hfile Hread Hfind Happ Hrefs
        |od cn r Hfile Hread Hres Hfind Hrefs Hres' Hw1].
  - subst. split; [eauto |].
    intros e Hin. by destruct (proj1 (reload_refs_nil _ _ _) Hrefs e Hin).
  - destruct (bool_decide (ctdb_exit w = 0%Z)); [|done]. split.
    + unfold set_statefiles. cbn [statefiles]. rewrite lookup_insert_eq. eauto.
    + intros e. rewrite entries_at_insert. apply in_nodes_confirmed.
Qed.

(** X2: after a pass that returns (with or without changes), the
    readiness query answers True for the pnn of every entry of the
    document. *)
Theorem X2_ready_after_pass (nodes_json real_path : string) (w w1 : world)
    (changed : bool) :
  _node_update nodes_json real_path w = (Ok changed, w1) ->
  forall e, e ∈ entries_at nodes_json w1 ->
    pnn_in_nodes (pnn e) nodes_json real_path w1 = (Ok true, w1).
Proof.
  intros Hpass e Hin.
  destruct (pass_confirms_all _ _ _ _ _ Hpass) as [[od Hfile] Hall].
  rewrite pnn_in_nodes_spec, Hfile. do 2 f_equal.
  apply existsb_exists. exists e. split; [by apply list_elem_of_In |].
  rewrite bool_decide_eq_true_2 by done. simpl. by apply Hall.
Qed.

Lemma X2_ready_after_pass_witness :
  let w1 := (_node_update "/nodes.json" "/nodes"
               (world_of doc_B ["10.0.0.10"] 0)).2 in
  pnn_in_nodes 1 "/nodes.json" "/nodes" (world_of doc_B ["10.0.0.10"] 0)
  = (Ok false, world_of doc_B ["10.0.0.10"] 0)
  /\ pnn_in_nodes 1 "/nodes.json" "/nodes" w1 = (Ok true, w1).
Proof.
  intros w1. split; [reflexivity |].
  apply (X2_ready_after_pass "/nodes.json" "/nodes"
           (world_of doc_B ["10.0.0.10"] 0) w1 true eq_refl
           (Entry "10.0.0.11" 1 true)).
  vm_compute. repeat constructor.
Defined.

(** ** Invariants of the document *)

Lemma not_has_pnn (p : Z) (entries : list entry) :
  has_pnn p entries = false -> p ∉ pnns entries.
Proof.
  intros H Hin. apply list_elem_of_fmap in Hin as (e & -> & He).
  assert (has_pnn (pnn e) entries = true); [| congruence].
  apply has_pnn_elem. eauto.
Qed.

(** X3: a registration, whether it succeeds or fails, keeps the entries
    that were there, in order and unchanged, adds at most one at the end,
    and keeps the pnns of the document distinct when they were. *)
Theorem X3_registration_keeps_invariant (node' : string) (p : Z)
    (path : string) (flag : bool) (w : world) :
  let w1 := (add_node_to_statefile node' p path flag w).2 in
  (entries_at path w1 = entries_at path w
   \/ entries_at path w1 = entries_at path w ++ [Entry node' p flag])
  /\ (NoDup (pnns (entries_at path w)) -> NoDup (pnns (entries_at path w1))).
Proof.
  cbv zeta. rewrite add_node_to_statefile_spec.
  destruct (has_pnn p (entries_at path w)) eqn:Hp; simpl.
  - split; [by left | done].
  - rewrite entries_at_insert. split; [by right |].
    intros Hnd. unfold pnns. rewrite map_app. simpl.
    apply NoDup_app. split; [done |]. split.
    + intros q Hq Hq'. apply list_elem_of_singleton in Hq' as ->.
      by apply (not_has_pnn _ _ Hp).
    + apply NoDup_singleton.
Qed.

Lemma X3_registration_keeps_invariant_witness :
  let w := world_of doc_B [] 0 in
  NoDup (pnns (entries_at "/nodes.json"
                 (add_node_to_statefile "10.0.0.12" 1 "/nodes.json" false w).2))
  /\ NoDup (pnns (entries_at "/nodes.json"
                    (add_node_to_statefile "10.0.0.12" 2 "/nodes.json" false w).2)).
Proof.
  intros w.
  assert (Hnd : NoDup (pnns (entries_at "/nodes.json" w))).
  { vm_compute. apply NoDup_cons. split; [| apply NoDup_singleton].
    by intros ?%list_elem_of_singleton. }
  split.
  - exact (proj2 (X3_registration_keeps_invariant "10.0.0.12" 1 "/nodes.json"
                    false w) Hnd).
  - exact (proj2 (X3_registration_keeps_invariant "10.0.0.12" 2 "/nodes.json"
                    false w) Hnd).
Defined.

Lemma confirmed_related (desired : list entry) :
  Forall2 (fun e e1 => node e1 = node e /\ pnn e1 = pnn e
                       /\ (in_nodes e = true -> in_nodes e1 = true))
          desired (map confirmed desired).
Proof. induction desired; simpl; constructor; auto. Qed.

Lemma same_related (desired : list entry) :
  Forall2 (fun e e1 => node e1 = node e /\ pnn e1 = pnn e
                       /\ (in_nodes e = true -> in_nodes e1 = true))
          desired desired.
Proof. induction desired; constructor; auto. Qed.

(** X4: whatever way a pass ends (returning or raising), the document
    holds afterwards the same entries in the same order, each with its
    address and pnn; a flag may only have gone from false to true; and
    the state files at other locations are untouched. *)
Theorem X4_pass_keeps_entries (nodes_json real_path : string) (w : world) :
  let w1 := (_node_update nodes_json real_path w).2 in
  Forall2 (fun e e1 => node e1 = node e /\ pnn e1 = pnn e
                       /\ (in_nodes e = true -> in_nodes e1 = true))
          (entries_at nodes_json w) (entries_at nodes_json w1)
  /\ forall other, other ≠ nodes_json ->
       statefiles w1 !! other = statefiles w !! other.
Proof.
  cbv zeta.
  pose proof (_node_update_pass_end nodes_json real_path w) as Hend.
  destruct Hend as [| | | |od cn r Hfile Hread Hres Hfind Hrefs];
    try (split; [apply same_related | done]).
  destruct (bool_decide (ctdb_exit w = 0%Z)).
  - split.
    + rewrite entries_at_insert. apply confirmed_related.
    + intros other Hne. unfold set_statefiles. cbn [statefiles].
      by rewrite lookup_insert_ne.
  - split; [apply same_related | done].
Qed.

(** ** The nodes file only grows *)

Lemma appended_clean (cn : list string) (desired : list entry) :
  Forall (fun e => Text.clean (node e)) desired ->
  Forall Text.clean (appended cn desired).
Proof.
  intros H. apply Forall_forall. intros a Ha.
  apply appended_elem in Ha as (e & Hin & _ & _ & <-).
  by apply (proj1 (Forall_forall _ _) H).
Qed.

(** X5: whatever way a pass ends, a nodes file that could be read is
    afterwards either as it was or rewritten as the list read followed by
    the appended addresses, and no other file is written; when the
    addresses of the document are clean (no line break, nothing for
    [strip] to remove) the list read afterwards is the list read before
    followed by zero or more addresses: no line is removed, changed or
    moved. *)
Theorem X5_nodes_file_append_only (nodes_json real_path : string) (w : world)
    (cn : list string) :
  nodes_file real_path w = Ok cn ->
  let w1 := (_node_update nodes_json real_path w).2 in
  exists r new,
    resolve MAXSYMLINKS (fs w) real_path = Some r
    /\ (fs w1 = fs w
        \/ fs w1 = <[r := File (write_nodes_file (cn ++ new))]> (fs w))
    /\ (Forall (fun e => Text.clean (node e)) (entries_at nodes_json w) ->
        exists more, nodes_file real_path w1 = Ok (cn ++ more)).
Proof.
  intros Hcn. cbv zeta. unfold nodes_file in Hcn.
  assert (Hread : read_ctdb_nodes real_path w = (Ok cn, w))
    by (by rewrite read_ctdb_nodes_eq, Hcn).
  destruct (read_ok_resolves real_path w cn) as [r Hres]; [done |].
  assert (Hsame : forall w', fs w' = fs w ->
            exists more, nodes_file real_path w' = Ok (cn ++ more)).
  { intros w' Hfs. exists []. unfold nodes_file.
    rewrite (read_ctdb_nodes_fs _ _ _ Hfs), Hcn. by rewrite app_nil_r. }
  pose proof (_node_update_pass_end nodes_json real_path w) as Hend.
  destruct Hend as [| | | |od cn' r' Hfile Hread' Hres' Hfind Hrefs];
    try (exists r, []; split; [done |]; split; [by left | intros _; by apply Hsame]).
  rewrite Hread in Hread'. injection Hread' as <-.
  rewrite Hres in Hres'. injection Hres' as <-.
  set (desired := entries_at nodes_json w).
  exists r, (appended cn desired). split; [done |].
  assert (Hfs : fs (if bool_decide (ctdb_exit w = 0%Z)
                    then set_statefiles
                           (insert nodes_json
                              (Some (JsonData (Some (map confirmed desired)))))
                           (nodes_committed r cn desired w)
                    else nodes_committed r cn desired w)
                = <[r := File (write_nodes_file (cn ++ appended cn desired))]> (fs w))
    by (by destruct (bool_decide (ctdb_exit w = 0%Z))).
  split; [by right |].
  intros Hclean. exists (appended cn desired). unfold nodes_file.
  assert (Hw : open_w real_path (write_nodes_file (cn ++ appended cn desired)) w
               = (Ok tt, set_fs (insert r (File (write_nodes_file
                                    (cn ++ appended cn desired)))) w)).
  { unfold open_w. by rewrite Hres. }
  rewrite (read_ctdb_nodes_fs real_path _
             (set_fs (insert r (File (write_nodes_file
                                        (cn ++ appended cn desired)))) w))
    by (by rewrite Hfs).
  rewrite (read_after_open_w _ _ _ _ Hw). simpl. f_equal.
  eapply commit_reads_back; [exact Hread |]. by apply appended_clean.
Qed.

Lemma X5_nodes_file_append_only_witness :
  let w := world_of doc_ahead ["10.0.0.10"] 0 in
  exists more,
    nodes_file "/nodes" (_node_update "/nodes.json" "/nodes" w).2
    = Ok (["10.0.0.10"] ++ more).
Proof.
  intros w.
  destruct (X5_nodes_file_append_only "/nodes.json" "/nodes" w ["10.0.0.10"]
              eq_refl) as (r & new & _ & _ & Hgrow).
  apply Hgrow. vm_compute.
  repeat (constructor; [split; reflexivity |]). constructor.
Defined.

Lemma X4_pass_keeps_entries_witness :
  let w := set_statefiles (insert "/other.json" (Some doc_A))
             (world_of doc_B ["10.0.0.10"] 0) in
  let w1 := (_node_update "/nodes.json" "/nodes" w).2 in
  statefiles w1 !! "/other.json" = Some (Some doc_A)
  /\ map node (entries_at "/nodes.json" w1) = ["10.0.0.10"; "10.0.0.11"].
Proof.
  intros w w1.
  destruct (X4_pass_keeps_entries "/nodes.json" "/nodes" w) as [Hrel Hother].
  split.
  - subst w1. rewrite (Hother "/other.json"); [reflexivity | discriminate].
  - reflexivity.
Defined.

(** ** The monitoring loop *)

Lemma _node_check_spec (p : Z) (nodes_json real_path : string) (w : world)
    (od : option json_data) (cn : list string) :
  statefiles w !! nodes_json = Some od ->
  read_ctdb_nodes real_path w = (Ok cn, w) ->
  _node_check p nodes_json real_path w =
    (Ok match List.filter (fun e => bool_decide (pnn e = p))
                          (entries_at nodes_json w) with
        | [] => false
        | my_desired :: _ => bool_decide (node my_desired ∈ cn)
        end, w).
Proof.
  intros Hfile Hread. unfold _node_check.
  unfold mbind at 1. unfold ST_bind at 1.
  rewrite (jfile_open_existing _ _ _ _ Hfile).
  unfold mbind at 1. unfold ST_bind at 1. rewrite jfile_load_document.
  unfold mbind at 1. unfold ST_bind at 1. rewrite Hread.
  rewrite <- entries_at_document.
  destruct (List.filter _ _) as [|e l]; [done |].
  by destruct (bool_decide (node e ∈ cn)).
Qed.

Lemma _node_check_world (p : Z) (nodes_json real_path : string) (w : world) :
  (_node_check p nodes_json real_path w).2 = w.
Proof.
  unfold _node_check.
  unfold mbind at 1. unfold ST_bind at 1. unfold jfile_open.
  destruct (statefiles w !! nodes_json) as [od|]; [|done].
  unfold mbind at 1. unfold ST_bind at 1. rewrite jfile_load_document.
  unfold mbind at 1. unfold ST_bind at 1.
  rewrite read_ctdb_nodes_eq.
  destruct (read_ctdb_nodes real_path w).1 as [cn|e]; [|done].
  destruct (List.filter _ _) as [|e l]; [done |].
  by destruct (bool_decide (node e ∈ cn)).
Qed.

(** X6: a node for which [_node_check] answers False (no entry with its
    pnn in the document, or the address of its entry nowhere in the nodes
    file) changes nothing, however long [manage_nodes] runs, as long as
    the pause itself changes nothing: no write of the nodes file, no
    reload, no write of the document. *)
Theorem X6_ineligible_node_never_writes (p : Z) (nodes_json real_path : string)
    (pause_func : M unit) (w : world) (turns : nat) :
  (_node_check p nodes_json real_path w).1 = Ok false ->
  pause_func w = (Ok tt, w) ->
  manage_nodes turns p nodes_json real_path pause_func w = (Ok tt, w).
Proof.
  intros Hcheck Hpause.
  assert (Hc : _node_check p nodes_json real_path w = (Ok false, w)).
  { pose proof (_node_check_world p nodes_json real_path w).
    destruct (_node_check p nodes_json real_path w); simpl in *; by subst. }
  induction turns as [|n IH]; simpl; [done |].
  unfold manage_nodes_turn.
  unfold mbind at 1 2. unfold ST_bind at 1 2. rewrite Hc.
  unfold mbind at 1. unfold ST_bind at 1. unfold mret at 1, ST_ret at 1.
  rewrite Hpause. exact IH.
Qed.

Lemma X6_ineligible_node_never_writes_witness :
  let w := world_of doc_B ["10.0.0.10"] 0 in
  manage_nodes 5 1 "/nodes.json" "/nodes" (mret tt) w = (Ok tt, w)
  /\ manage_nodes 5 7 "/nodes.json" "/nodes" (mret tt) w = (Ok tt, w).
Proof.
  intros w. split.
  - apply (X6_ineligible_node_never_writes 1 "/nodes.json" "/nodes" (mret tt) w 5);
      reflexivity.
  - apply (X6_ineligible_node_never_writes 7 "/nodes.json" "/nodes" (mret tt) w 5);
      reflexivity.
Defined.

(** X7: [_node_check] answers True exactly when the document has an
    entry with the given pnn and the address of the first such entry
    occurs somewhere in the nodes file, at whatever line; it raises
    FileNotFoundError when there is no state file, and never writes. *)
Theorem X7_node_check_eligibility (p : Z) (nodes_json real_path : string)
    (w : world) (cn : list string) :
  nodes_file real_path w = Ok cn ->
  (statefiles w !! nodes_json = None ->
     _node_check p nodes_json real_path w = (Raise FileNotFoundError, w))
  /\ (forall od, statefiles w !! nodes_json = Some od ->
      exists able,
        _node_check p nodes_json real_path w = (Ok able, w)
        /\ (able = true <->
            exists before e after,
              entries_at nodes_json w = before ++ e :: after
              /\ Forall (fun e' => pnn e' ≠ p) before
              /\ pnn e = p /\ node e ∈ cn)).
Proof.
  intros Hcn. unfold nodes_file in Hcn.
  assert (Hread : read_ctdb_nodes real_path w = (Ok cn, w))
    by (by rewrite read_ctdb_nodes_eq, Hcn).
  split.
  - intros Hnone. unfold _node_check.
    unfold mbind at 1. unfold ST_bind at 1. unfold jfile_open. by rewrite Hnone.
  - intros od Hfile. eexists. split; [by eapply _node_check_spec |].
    generalize (entries_at nodes_json w). intros entries.
    induction entries as [|e0 entries IH]; simpl.
    + split; [done |]. intros (before & e & after & Heq & _).
      by destruct before.
    + case_bool_decide as Hp.
      * rewrite bool_decide_eq_true. split.
        -- intros Hin. exists [], e0, entries. by repeat split.
        -- intros (before & e & after & Heq & Hbefore & He & Hin).
           destruct before as [|b before]; simpl in Heq.
           ++ by injection Heq as -> _.
           ++ injection Heq as -> _. by inversion Hbefore.
      * rewrite IH. split.
        -- intros (before & e & after & -> & Hbefore & He & Hin).
           exists (e0 :: before), e, after. repeat split; auto.
        -- intros (before & e & after & Heq & Hbefore & He & Hin).
           destruct before as [|b before]; simpl in Heq.
           ++ injection Heq as -> _. done.
           ++ injection Heq as -> ->. inversion Hbefore; subst.
              exists before, e, after. by repeat split.
Qed.

Lemma X7_node_check_eligibility_witness :
  let w := world_of doc_B ["10.0.0.11"; "10.0.0.10"] 0 in
  exists able,
    _node_check 1 "/nodes.json" "/nodes" w = (Ok able, w) /\ able = true.
Proof.
  intros w.
  destruct (proj2 (X7_node_check_eligibility 1 "/nodes.json" "/nodes" w
                     ["10.0.0.11"; "10.0.0.10"] eq_refl)
              (Some doc_B) eq_refl) as (able & Hcheck & Hable).
  exists able. split; [exact Hcheck |]. apply Hable.
  exists [Entry "10.0.0.10" 0 true], (Entry "10.0.0.11" 1 false), [].
  split; [reflexivity |]. split.
  - constructor; [discriminate | constructor].
  - split; [reflexivity | repeat constructor].
Defined.

(** ** The canonical link to the nodes file *)







Lemma py_index_elem (x : string) (l : list string) :
  x ∈ l -> exists i, py_index x l = Some i /\ l !! i = Some x.
Proof.
  induction l as [|y l IH]; [by intros ?%elem_of_nil |].
  intros Hin. simpl. case_bool_decide as Hxy.
  - subst. by exists 0%nat.
  - apply elem_of_cons in Hin as [?|Hin]; [done |].
    destruct (IH Hin) as (i & -> & Hi). by exists (S i).
Qed.



(** ** ctdb.conf *)

Lemma join_lines_app (l1 l2 : list string) :
  Text.join_lines (l1 ++ l2) = Text.join_lines l1 +:+ Text.join_lines l2.
Proof.
  induction l1 as [|x l1 IH]; simpl; [done |].
  rewrite IH. rewrite append_assoc. done.
Qed.

Lemma write_ctdb_conf_join (ctdb_params : gmap string (option string)) :
  write_ctdb_conf ctdb_params = Text.join_lines (ctdb_conf_lines ctdb_params).
Proof.
  unfold write_ctdb_conf, ctdb_conf_lines, param_line, param, nl.
  destruct (ctdb_params !! "log_level") as [[v1|]|];
    destruct (ctdb_params !! "recovery_lock") as [[v2|]|];
    destruct (ctdb_params !! "realtime_scheduling") as [[v3|]|];
    destruct (ctdb_params !! "script_log_level") as [[v4|]|];
    cbn [app Text.join_lines String.append];
    rewrite ?append_assoc; cbn [String.append]; rewrite ?append_assoc;
    reflexivity.
Qed.

(** X11: the text [write_ctdb_conf] writes depends on the values of its
    four keys only (other keys of the dict are ignored, and a key mapped
    to None counts as absent); when those values hold no line break, the
    text read line by line is the three section headers in order, each
    followed by one line [name = value] per key of the section that has
    a value, then an empty line; and [ensure_ctdb_conf] leaves exactly
    that text in the file, whatever the file held. *)
Theorem X11_ctdb_conf (params : gmap string (option string)) :
  (forall params',
     (forall key, key ∈ ctdb_conf_keys -> param params' key = param params key) ->
     write_ctdb_conf params' = write_ctdb_conf params)
  /\ ((forall key value, key ∈ ctdb_conf_keys -> param params key = Some value ->
         Text.no_newline value = true) ->
      Text.lines (write_ctdb_conf params)
      = map (fun body => body +:+ nl) (ctdb_conf_lines params))
  /\ (forall path w p, resolve MAXSYMLINKS (fs w) path = Some p ->
        exists w1, ensure_ctdb_conf params path w = (Ok tt, w1)
                   /\ open_r path w1 = (Ok (write_ctdb_conf params), w1)).
Proof.
  split; [| split].
  - intros params' Hsame. rewrite !write_ctdb_conf_join.
    unfold ctdb_conf_lines, param_line.
    rewrite !Hsame; [done | | | |]; unfold ctdb_conf_keys; set_solver.
  - intros Hnl. rewrite write_ctdb_conf_join.
    apply lines_join_lines. unfold ctdb_conf_lines.
    assert (Hline : forall name key, key ∈ ctdb_conf_keys ->
              Text.no_newline name = true ->
              Forall (fun n => Text.no_newline n = true)
                     (param_line params name key)).
    { intros name key Hkey Hname. unfold param_line.
      destruct (param params key) as [value|] eqn:E; [| constructor].
      constructor; [| constructor].
      unfold Text.no_newline in *. rewrite !all_chars_append.
      rewrite Hname. rewrite (Hnl key value Hkey E). done. }
    repeat (apply Forall_app; split);
      try (apply Hline; [unfold ctdb_conf_keys; set_solver | reflexivity]);
      repeat constructor.
  - intros path w p Hres. eexists. split.
    + unfold ensure_ctdb_conf, open_w. by rewrite Hres.
    + apply (open_w_open_r _ _ w). unfold open_w. by rewrite Hres.
Qed.

Lemma X11_ctdb_conf_witness :
  let params : gmap string (option string) :=
    {[ "log_level" := Some "DEBUG"; "recovery_lock" := Some "/tmp/foo/lock";
       "script_log_level" := None ]}%string in
  write_ctdb_conf (<["nodes_path" := Some "/x"]> params) = write_ctdb_conf params
  /\ Text.lines (write_ctdb_conf params)
     = map (fun body => body +:+ nl)
           ["[logging]"; "log level = DEBUG"; ""; "[cluster]";
            "recovery lock = /tmp/foo/lock"; ""; "[legacy]"; ""]
  /\ exists w1, ensure_ctdb_conf params "/etc/ctdb/ctdb.conf" (world_nodes [])
                = (Ok tt, w1)
                /\ open_r "/etc/ctdb/ctdb.conf" w1 = (Ok (write_ctdb_conf params), w1).
Proof.
  intros params.
  destruct (X11_ctdb_conf params) as (Hkeys & Hlines & Hfile).
  split; [| split].
  - apply Hkeys. intros key Hkey. unfold ctdb_conf_keys in Hkey.
    repeat (apply elem_of_cons in Hkey as [->|Hkey]; [reflexivity |]).
    by apply elem_of_nil in Hkey.
  - apply Hlines. intros key value Hkey. unfold ctdb_conf_keys in Hkey.
    repeat (apply elem_of_cons in Hkey as [->|Hkey];
            [vm_compute; intros [= <-] || discriminate; reflexivity |]).
    by apply elem_of_nil in Hkey.
  - apply (Hfile "/etc/ctdb/ctdb.conf" (world_nodes []) "/etc/ctdb/ctdb.conf").
    reflexivity.
Defined.

(** ** Paths *)

Section PathFacts.
Local Arguments String.append !_ _ : simpl nomatch.

Lemma path_join_relative (a b : string) :
  String.prefix "/" b = false -> path_join a b = dir_prefix a +:+ b.
Proof.
  intros H. unfold path_join, dir_prefix. rewrite H.
  destruct (bool_decide (a = EmptyString) || ends_with_slash a); [done |].
  by rewrite append_assoc.
Qed.





Lemma ends_with_slash_append (a b : string) :
  b ≠ EmptyString -> ends_with_slash (a +:+ b) = ends_with_slash b.
Proof.
  intros Hb. induction a as [|c a IH]; simpl; [done |].
  destruct (a +:+ b) eqn:E; [| exact IH].
  destruct a; [simpl in E; by subst | done].
Qed.


End PathFacts.

(** ** Support files of ctdbd *)





(** ** Migration of TDB files *)

Lemma for_app {S A} (l1 l2 : list A) (body : A -> ST S unit) (s : S) :
  for_ (l1 ++ l2) body s =
    match for_ l1 body s with
    | (Ok _, s') => for_ l2 body s'
    | (Raise e, s') => (Raise e, s')
    end.
Proof.
  revert s. induction l1 as [|x l1 IH]; intros s; simpl; [done |].
  unfold mbind, ST_bind. destruct (body x s) as [[[]|e] s']; [apply IH | done].
Qed.

Lemma for_map {S A B} (f : A -> B) (l : list A) (body : B -> ST S unit) (s : S) :
  for_ l (fun x => body (f x)) s = for_ (map f l) body s.
Proof.
  revert s. induction l as [|x l IH]; intros s; simpl; [done |].
  unfold mbind, ST_bind. destruct (body (f x) s) as [[[]|e] s']; [apply IH | done].
Qed.

Lemma for_flat_map {S A B} (g : A -> list B) (l : list A)
    (body : B -> ST S unit) (s : S) :
  for_ l (fun x => for_ (g x) body) s = for_ (flat_map g l) body s.
Proof.
  revert s. induction l as [|x l IH]; intros s; simpl; [done |].
  rewrite for_app. unfold mbind, ST_bind.
  destruct (for_ (g x) body s) as [[[]|e] s']; [apply IH | done].
Qed.

(** The loop of [migrate_tdb] over any list of paths. *)
Lemma convert_loop (dest_dir : string) (pnn' : Z) (paths : list string)
    (w : tdb_world) :
  for_ paths (fun tdb_path =>
      has ← _has_tdb_file tdb_path;
      if (has : bool) then _convert_tdb_file tdb_path dest_dir pnn'
      else mret tt) w
  = let '(run, failed) :=
      conversions_run (ltdbtool_exit w)
        (map (fun p => (p, tdb_opath p dest_dir pnn'))
             (List.filter (isfile (tdb_files w)) paths)) in
    (match failed with
     | None => Ok tt
     | Some returncode => Raise (CalledProcessError returncode)
     end,
     TdbWorld (tdb_files w) (ltdbtool_exit w) (conversions w ++ run)).
Proof.
  revert w. induction paths as [|p paths IH]; intros w.
  - simpl. rewrite app_nil_r. by destruct w.
  - cbn [for_ List.filter]. unfold mbind at 1. unfold ST_bind at 1.
    unfold mbind at 1. unfold ST_bind at 1. unfold _has_tdb_file at 1.
    destruct (isfile (tdb_files w) p) eqn:Hp.
    + unfold _convert_tdb_file. cbn [map conversions_run].
      case_bool_decide as Hexit.
      * rewrite IH. cbn [tdb_files ltdbtool_exit conversions].
        destruct (conversions_run _ _) as [run failed].
        by rewrite <- app_assoc.
      * done.
    + unfold mret at 1, ST_ret at 1. apply IH.
Qed.

Lemma migrate_tdb_spec (dest_dir : string) (pnn' : Z) (w : tdb_world) :
  migrate_tdb dest_dir pnn' w
  = let '(run, failed) :=
      conversions_run (ltdbtool_exit w) (tdb_todo (tdb_files w) dest_dir pnn') in
    (match failed with
     | None => Ok tt
     | Some returncode => Raise (CalledProcessError returncode)
     end,
     TdbWorld (tdb_files w) (ltdbtool_exit w) (conversions w ++ run)).
Proof.
  unfold migrate_tdb, tdb_todo, tdb_candidates.
  rewrite <- convert_loop. rewrite <- for_flat_map.
  f_equal.
Qed.

Lemma conversions_run_facts (exit : string -> string -> Z)
    (todo : list (string * string)) :
  let '(run, failed) := conversions_run exit todo in
  run `prefix_of` todo
  /\ Forall (fun c => exit c.1 c.2 = 0%Z) (removelast run)
  /\ match failed with
     | None => run = todo /\ Forall (fun c => exit c.1 c.2 = 0%Z) todo
     | Some returncode =>
         returncode ≠ 0%Z
         /\ exists src dst, last run = Some (src, dst)
                            /\ exit src dst = returncode
     end.
Proof.
  induction todo as [|[src dst] todo IH]; simpl.
  - split; [done |]. split; [constructor |]. split; [done | constructor].
  - case_bool_decide as Hexit.
    + destruct (conversions_run exit todo) as [run failed].
      destruct IH as (Hpre & Hzero & Hfail).
      split; [by apply prefix_cons |]. split.
      * destruct run as [|c run]; [constructor |]. simpl. by constructor.
      * destruct failed as [returncode|].
        -- destruct Hfail as (Hne & s & d & Hlast & Hcode). split; [done |].
           exists s, d. split; [| done]. by destruct run.
        -- destruct Hfail as [-> Hall]. split; [done |]. by constructor.
    + split; [by apply prefix_cons, prefix_nil |]. split; [constructor |].
      split; [done |]. by exists src, dst.
Qed.

(** X13: [migrate_tdb] changes no file itself; the conversions it runs
    are, in order, those of the files that exist among the fourteen
    paths it looks at (the seven names under each of the two
    directories), each to its destination, up to and with the first
    conversion that exits non-zero: that one makes it raise
    CalledProcessError with that status, and the later files are not
    converted; when it returns, every existing file has been converted. *)
Theorem X13_migrate_tdb_conversions (dest_dir : string) (pnn' : Z)
    (w : tdb_world) :
  let res := (migrate_tdb dest_dir pnn' w).1 in
  let w1 := (migrate_tdb dest_dir pnn' w).2 in
  let todo := tdb_todo (tdb_files w) dest_dir pnn' in
  tdb_files w1 = tdb_files w
  /\ (forall src dst, (src, dst) ∈ todo ->
        src ∈ tdb_candidates /\ isfile (tdb_files w) src = true
        /\ dst = tdb_opath src dest_dir pnn')
  /\ exists run,
       conversions w1 = conversions w ++ run
       /\ run `prefix_of` todo
       /\ (res = Ok tt -> run = todo)
       /\ (forall returncode, res = Raise (CalledProcessError returncode) ->
             returncode ≠ 0%Z
             /\ exists src dst, last run = Some (src, dst)
                                /\ ltdbtool_exit w src dst = returncode)
       /\ ((forall src dst, (src, dst) ∈ todo -> ltdbtool_exit w src dst = 0%Z) ->
           res = Ok tt).
Proof.
  cbv zeta. rewrite migrate_tdb_spec.
  pose proof (conversions_run_facts (ltdbtool_exit w)
                (tdb_todo (tdb_files w) dest_dir pnn')) as Hfacts.
  destruct (conversions_run _ _) as [run failed].
  destruct Hfacts as (Hpre & Hzero & Hfail). cbn [fst snd tdb_files conversions].
  split; [done |]. split.
  { intros src dst Hin. unfold tdb_todo in Hin.
    apply list_elem_of_fmap in Hin as (p & [= -> ->] & Hp).
    apply list_elem_of_In, filter_In in Hp as [Hp Hfile].
    split; [by apply list_elem_of_In | done]. }
  exists run. split; [done |]. split; [done |].
  destruct failed as [code|].
  - destruct Hfail as (Hne & src & dst & Hlast & Hcode).
    split; [done |]. split.
    + intros returncode [= <-]. split; [done |]. eauto.
    + intros Hall. exfalso. apply Hne. rewrite <- Hcode. apply Hall.
      destruct Hpre as [k ->]. apply elem_of_app. left.
      apply last_Some in Hlast as [l' ->]. apply elem_of_app. right.
      by apply list_elem_of_singleton.
  - destruct Hfail as [-> Hall]. split; [done |]. split; [done | done].
Qed.

Lemma X13_migrate_tdb_conversions_witness :
  let w := tdb_world_ex (fun _ _ => 0%Z) in
  (migrate_tdb "/dst" 0 w).1 = Ok tt
  /\ conversions (migrate_tdb "/dst" 0 w).2
     = [("/var/lib/samba/private/passdb.tdb", "/dst/passdb.tdb.0");
        ("/var/lib/samba/registry.tdb", "/dst/registry.tdb.0")].
Proof.
  intros w.
  destruct (X13_migrate_tdb_conversions "/dst" 0 w)
    as (_ & _ & run & Hrun & _ & Hall & _ & Hok).
  specialize (Hok (fun _ _ _ => eq_refl)). specialize (Hall Hok).
  split; [exact Hok |]. rewrite Hrun, Hall. reflexivity.
Defined.

Section BasenameFacts.
Local Arguments String.append !_ _ : simpl nomatch.

Lemma basename_no_slash (b : string) : no_slash b = true -> basename b = b.
Proof.
  unfold no_slash. destruct b as [|c b]; simpl; [done |].
  intros [Hc Hb]%andb_true_iff. apply negb_true_iff in Hc.
  by rewrite Hc, Hb.
Qed.

Lemma no_slash_ends (x b : string) :
  ends_with_slash x = true -> no_slash (x +:+ b) = false.
Proof.
  unfold no_slash. induction x as [|c x IH]; simpl; [done |].
  destruct x as [|c' x'].
  - intros Hc. simpl. by rewrite Hc.
  - intros H. rewrite (IH H). apply andb_false_r.
Qed.

Lemma basename_after_slash (x b : string) :
  ends_with_slash x = true -> no_slash b = true -> basename (x +:+ b) = b.
Proof.
  intros Hx Hb. induction x as [|c x IH]; [done |].
  destruct x as [|c' x'].
  - simpl in Hx. simpl. rewrite Hx. by apply basename_no_slash.
  - specialize (IH Hx).
    pose proof (no_slash_ends (String c' x') b Hx) as Hy.
    change (String c (String c' x') +:+ b) with (String c (String c' x' +:+ b)).
    remember (String c' x' +:+ b) as y eqn:Ey. clear Ey.
    unfold no_slash in Hy. cbn [basename]. rewrite Hy.
    by destruct (Ascii.eqb c "/").
Qed.

Lemma ends_with_slash_snoc (a : string) : ends_with_slash (a +:+ "/") = true.
Proof. by rewrite ends_with_slash_append. Qed.

Lemma basename_path_join (a b : string) :
  no_slash b = true -> basename (path_join a b) = b.
Proof.
  intros Hb.
  assert (Hrel : String.prefix "/" b = false).
  { destruct b as [|c b]; [done |]. unfold no_slash in Hb. simpl in Hb.
    apply andb_true_iff in Hb as [Hc _]. apply negb_true_iff in Hc.
    cbn [String.prefix]. destruct (Ascii.ascii_dec "/" c) as [E|]; [| done].
    subst c. by rewrite Ascii.eqb_refl in Hc. }
  rewrite path_join_relative by done. unfold dir_prefix.
  destruct (bool_decide (a = EmptyString)) eqn:Ha.
  - apply bool_decide_eq_true_1 in Ha as ->. simpl. by apply basename_no_slash.
  - simpl. destruct (ends_with_slash a) eqn:He.
    + by apply basename_after_slash.
    + apply basename_after_slash; [apply ends_with_slash_snoc | done].
Qed.

End BasenameFacts.

(** X14: the destination of a conversion depends on the name of the
    file only, not on the directory it is found in: for every directory
    and every name without a slash the destination is the name followed
    by a dot and the pnn, under the destination directory, so a name
    found in both source directories has one and the same destination. *)
Theorem X14_tdb_destination (parent tdbfile dest_dir : string) (pnn' : Z) :
  no_slash tdbfile = true ->
  tdb_opath (path_join parent tdbfile) dest_dir pnn'
  = path_join dest_dir (tdbfile +:+ "." +:+ py_str_int pnn').
Proof.
  intros H. unfold tdb_opath. cbv zeta. by rewrite basename_path_join.
Qed.

Lemma X14_tdb_destination_witness :
  tdb_opath "/var/lib/samba/passdb.tdb" "/var/lib/ctdb/persistent" 2
  = "/var/lib/ctdb/persistent/passdb.tdb.2"
  /\ tdb_opath "/var/lib/samba/private/passdb.tdb" "/var/lib/ctdb/persistent" 2
     = "/var/lib/ctdb/persistent/passdb.tdb.2".
Proof.
  split.
  - apply (X14_tdb_destination "/var/lib/samba" "passdb.tdb"
             "/var/lib/ctdb/persistent" 2). reflexivity.
  - apply (X14_tdb_destination "/var/lib/samba/private" "passdb.tdb"
             "/var/lib/ctdb/persistent" 2). reflexivity.
Defined.

(** ** Identity of a node *)

Lemma py_str_int_inj (n m : Z) : py_str_int n = py_str_int m -> n = m.
Proof.
  unfold py_str_int. intros H. apply DecimalZ.to_int_inj.
  pose proof (DecimalString.NilEmpty.isi (Z.to_int n)) as Hn.
  pose proof (DecimalString.NilEmpty.isi (Z.to_int m)) as Hm.
  rewrite H in Hn. congruence.
Qed.

(** X15: the identity of a node is never empty; it is the host name
    when one is set (not empty), whatever the node number; without a host
    name it is "-unknown-" exactly when the node number is unset or 0,
    so node 0 is not told apart from an unknown node, and otherwise
    "node-" followed by the number in decimal, two different numbers
    giving two different identities. *)
Theorem X15_identity (hostname : option string) (node_number : option Z) :
  identity hostname node_number ≠ EmptyString
  /\ (forall h, hostname = Some h -> h ≠ EmptyString ->
        identity hostname node_number = h)
  /\ (hostname = None \/ hostname = Some EmptyString ->
      (identity hostname node_number = "-unknown-"%string
       <-> node_number = None \/ node_number = Some 0%Z)
      /\ (forall n, node_number = Some n -> n ≠ 0%Z ->
            identity hostname node_number = ("node-" +:+ py_str_int n)%string
            /\ forall m, m ≠ 0%Z ->
                 identity hostname (Some m) = identity hostname node_number ->
                 m = n)).
Proof.
  assert (Hnum : forall n, n ≠ 0%Z ->
            negb (bool_decide (n = 0%Z)) = true)
    by (intros n Hn; by rewrite bool_decide_eq_false_2).
  split; [| split].
  - unfold identity.
    destruct hostname as [h|]; [destruct (bool_decide (h = EmptyString)) eqn:Eh|];
      simpl; try (by apply bool_decide_eq_false_1 in Eh);
      destruct node_number as [n|]; try done;
      by destruct (bool_decide (n = 0%Z)).
  - intros h -> Hh. unfold identity. by rewrite bool_decide_eq_false_2.
  - intros Hhost.
    assert (Hid : forall nn, identity hostname nn =
              match nn with
              | Some n => if negb (bool_decide (n = 0%Z))
                          then ("node-" +:+ py_str_int n)%string
                          else "-unknown-"%string
              | None => "-unknown-"%string
              end).
    { intros nn. by destruct Hhost as [-> | ->]. }
    split.
    + rewrite Hid. destruct node_number as [n|]; [| by split; auto].
      destruct (decide (n = 0%Z)) as [->|Hn].
      * split; auto.
      * rewrite (Hnum n Hn). split; [done |]. intros [?|[= ?]]; done.
    + intros n -> Hn. rewrite Hid, (Hnum n Hn). split; [done |].
      intros m Hm. rewrite Hid, (Hnum m Hm). intros H.
      apply py_str_int_inj. by injection H.
Qed.

Lemma X15_identity_witness :
  identity (Some "samba-2"%string) (Some 2%Z) = "samba-2"%string
  /\ identity None (Some 0%Z) = "-unknown-"%string
  /\ identity None (Some 12%Z) = "node-12"%string.
Proof.
  split; [| split].
  - apply (proj1 (proj2 (X15_identity (Some "samba-2"%string) (Some 2%Z))));
      [reflexivity | discriminate].
  - apply (proj1 (proj2 (proj2 (X15_identity None (Some 0%Z))) (or_introl eq_refl))).
    right. reflexivity.
  - apply (proj2 (proj2 (proj2 (X15_identity None (Some 12%Z)))
                    (or_introl eq_refl)) 12%Z); [reflexivity | discriminate].
Defined.

(** ** The location of the cluster meta document *)

Lemma prefix_slash (p : string) :
  String.prefix "/" p = true -> exists r, p = String "/" r.
Proof.
  destruct p as [|c r]; [done |]. cbn [String.prefix].
  destruct (Ascii.ascii_dec "/" c) as [<-|]; [eauto | done].
Qed.

Lemma rstrip_slash_head (r : string) :
  rstrip_slash (String "/" r) = EmptyString
  \/ exists r', rstrip_slash (String "/" r) = String "/" r'.
Proof.
  simpl. destruct (rstrip_slash r) as [|c r'']; [by left |]. right. eauto.
Qed.

(** X16: for a location that is not a RADOS URI and names an absolute
    path [p], bare or after "file:", the cluster meta JSON file (and the
    waiter) get "/" followed by [p] without its trailing slashes: a slash
    is put in front of the path, so the path handed on is "/" alone or
    starts with two slashes; both spellings give the same path. A
    relative path is handed on as it is. *)
Theorem X16_cluster_meta_path (is_rados_uri : string -> bool) (p : string) :
  (String.prefix "/" p = true ->
   forall uri, (uri = p \/ uri = ("file:" +:+ p)%string) ->
     is_rados_uri uri = false ->
     let path := ("/" +:+ rstrip_slash p)%string in
     _cluster_meta_init is_rados_uri uri
     = (ClusterMetaJSONFile path, best_waiter path)
     /\ (path = "/"%string \/ String.prefix "//" path = true))
  /\ (String.prefix "/" p = false -> String.prefix "file:" p = false ->
      is_rados_uri p = false ->
      _cluster_meta_init is_rados_uri p
      = (ClusterMetaJSONFile p, best_waiter p)).
Proof.
  split.
  - intros Hp uri Huri Hrados. cbv zeta. split.
    + unfold _cluster_meta_init. rewrite Hrados.
      destruct (prefix_slash p Hp) as [r ->].
      destruct Huri as [-> | ->].
      * change (String.prefix "file:" (String "/" r)) with false.
        cbv iota. by rewrite Hp.
      * change (String.prefix "file:" ("file:" +:+ String "/" r)) with true.
        change (after_first_colon ("file:" +:+ String "/" r))
          with (String "/" r).
        cbv iota. by rewrite Hp.
    + destruct (prefix_slash p Hp) as [r ->].
      destruct (rstrip_slash_head r) as [-> | [r' ->]]; [by left | right].
      change ("/" +:+ String "/" r')%string with (String "/" (String "/" r')).
      cbn [String.prefix].
      destruct (Ascii.ascii_dec "/" "/"); [| congruence].
      by destruct r'.
  - intros Hrel Hfile Hrados. unfold _cluster_meta_init.
    by rewrite Hrados, Hfile, Hrel.
Qed.

Lemma X16_cluster_meta_path_witness :
  _cluster_meta_init (fun _ => false) "file:///var/lib/meta.json/"
  = (ClusterMetaJSONFile "////var/lib/meta.json",
     best_waiter "////var/lib/meta.json")
  /\ _cluster_meta_init (fun _ => false) "/var/lib/meta.json"
     = (ClusterMetaJSONFile "//var/lib/meta.json",
        best_waiter "//var/lib/meta.json")
  /\ _cluster_meta_init (fun _ => false) "meta/nodes.json"
     = (ClusterMetaJSONFile "meta/nodes.json", best_waiter "meta/nodes.json").
Proof.
  split; [| split].
  - apply (proj1 (X16_cluster_meta_path (fun _ => false) "///var/lib/meta.json/")
             eq_refl "file:///var/lib/meta.json/"); [by right | reflexivity].
  - apply (proj1 (X16_cluster_meta_path (fun _ => false) "/var/lib/meta.json")
             eq_refl "/var/lib/meta.json"); [by left | reflexivity].
  - apply (proj2 (X16_cluster_meta_path (fun _ => false) "meta/nodes.json"));
      reflexivity.
Defined.

(** ** Reading a nodes file again *)

(** X17: whatever a nodes file holds, the entries read from it hold no
    line break and nothing [strip] would remove; writing them and reading
    again gives the same entries, and writing those gives the same text:
    one write brings any nodes file to a form that reading and writing
    leave alone. *)
Theorem X17_read_write_read (fh : string) :
  Forall Text.clean (read_nodes_file fh)
  /\ read_nodes_file (write_nodes_file (read_nodes_file fh)) = read_nodes_file fh
  /\ write_nodes_file (read_nodes_file (write_nodes_file (read_nodes_file fh)))
     = write_nodes_file (read_nodes_file fh).
Proof.
  pose proof (read_nodes_file_clean fh) as Hclean.
  pose proof (read_write_clean _ Hclean) as Hback.
  split; [done |]. split; [done |]. by rewrite Hback.
Qed.

(** ** The smb.conf template *)

Section TemplateFacts.
Local Arguments String.append !_ _ : simpl nomatch.

Lemma options_acc (opts : list (string * string)) (fh : string) :
  fold_left (fun fh '(key, val) =>
               fh +:+ TAB +:+ key +:+ " = " +:+ val +:+ nl) opts fh
  = fh +:+ Text.join_lines (map option_line opts).
Proof.
  revert fh. induction opts as [|[key val] opts IH]; intros fh; simpl.
  - by rewrite append_empty_r.
  - rewrite IH. unfold option_line at 2. unfold nl, TAB. cbn [fst snd].
    repeat first [rewrite append_assoc | progress cbn [String.append]]; done.
Qed.

Lemma shares_acc (l : list share) (fh : string) :
  fold_left (fun fh share =>
               let fh := fh +:+ nl +:+ "[" +:+ share_name share +:+ "]" +:+ nl in
               fold_left (fun fh '(skey, sval) =>
                            fh +:+ TAB +:+ skey +:+ " = " +:+ sval +:+ nl)
                         (share_options share) fh) l fh
  = fh +:+ Text.join_lines (flat_map share_lines l).
Proof.
  revert fh. induction l as [|s l IH]; intros fh; simpl.
  - by rewrite append_empty_r.
  - rewrite IH, options_acc. unfold share_lines.
    rewrite !join_lines_app. cbn [Text.join_lines]. unfold nl.
    repeat first [rewrite append_assoc | progress cbn [String.append]]; done.
Qed.

Lemma template_config_join (iconfig : instance_config) :
  template_config iconfig = Text.join_lines (template_lines iconfig).
Proof.
  unfold template_config, template_lines. cbv zeta.
  rewrite shares_acc, options_acc. rewrite !join_lines_app.
  cbn [Text.join_lines]. unfold nl.
  repeat first [rewrite append_assoc | progress cbn [String.append]]; done.
Qed.

End TemplateFacts.

(** X18: when no key, value or share name holds a line break, the text
    [template_config] writes, read line by line, is the [global] header,
    one tab-indented line [key = value] per global option in order, and
    then for each share in order an empty line, its header in brackets
    and one such line per option of the share; [ensure_smb_conf] leaves
    exactly the text of the template in the file, whatever it held. *)
Theorem X18_template_config_lines (iconfig : instance_config) :
  (Forall (fun kv => Text.no_newline kv.1 = true /\ Text.no_newline kv.2 = true)
          (global_options iconfig) ->
   Forall (fun s => Text.no_newline (share_name s) = true
                    /\ Forall (fun kv => Text.no_newline kv.1 = true
                                         /\ Text.no_newline kv.2 = true)
                              (share_options s))
          (shares iconfig) ->
   Text.lines (template_config iconfig)
   = map (fun body => body +:+ nl) (template_lines iconfig))
  /\ (forall path w p, resolve MAXSYMLINKS (fs w) path = Some p ->
        exists w1, ensure_smb_conf iconfig path w = (Ok tt, w1)
                   /\ open_r path w1 = (Ok (template_config iconfig), w1)).
Proof.
  split.
  2:{ intros path w p Hres. eexists. split.
      - unfold ensure_smb_conf, open_w. by rewrite Hres.
      - apply (open_w_open_r _ _ w). unfold write_smb_conf, open_w.
        by rewrite Hres. }
  intros Hg Hs. rewrite template_config_join. apply lines_join_lines.
  assert (Hopt : forall opts,
            Forall (fun kv => Text.no_newline kv.1 = true
                              /\ Text.no_newline kv.2 = true) opts ->
            Forall (fun n => Text.no_newline n = true) (map option_line opts)).
  { intros opts H. induction H as [|kv opts [Hk Hv] _ IH]; simpl; constructor;
      [| done].
    unfold option_line, Text.no_newline in *. rewrite !all_chars_append.
    by rewrite Hk, Hv. }
  unfold template_lines. apply Forall_app. split; [repeat constructor |].
  apply Forall_app. split; [by apply Hopt |].
  induction Hs as [|s l [Hn Ho] _ IH]; simpl; [constructor |].
  constructor; [done |]. constructor.
  { unfold Text.no_newline in *. rewrite !all_chars_append. by rewrite Hn. }
  apply Forall_app. split; [by apply Hopt | done].
Qed.

Lemma X18_template_config_lines_witness :
  Text.lines (template_config
                (InstanceConfig [("clustering", "yes")]
                   [Share "share" [("path", "/share"); ("read only", "no")]]))
  = map (fun body => body +:+ nl)
        ["[global]"; TAB +:+ "clustering = yes"; ""; "[share]";
         TAB +:+ "path = /share"; TAB +:+ "read only = no"].
Proof.
  apply (proj1 (X18_template_config_lines
                  (InstanceConfig [("clustering", "yes")]
                     [Share "share" [("path", "/share"); ("read only", "no")]]))).
  - repeat constructor.
  - repeat constructor.
Defined.
